(** * OvaCare: the credential and token lifecycle of [auth.py]

    A shallow embedding of [src/auth.py]: the password hasher
    ([get_password_hash], [verify_password]), the token codec
    ([create_access_token] and the decoding half of [get_current_user]), the
    in-memory credential store [TEMP_USER_DATABASE] and the three service
    operations [signup], [login_for_access_token] and [get_current_user].

    Python values are modelled as the code has them: a [str] is a sequence of
    code points, [bytes] a sequence of numbers below 256, a [dict] a finite
    map, a [datetime] and a [timedelta] a number of microseconds.  Raised
    exceptions are values of [exn]; code that reads or writes the module-level
    store is a function from the store to an outcome and a store.

    The two third-party libraries the module calls, passlib's [CryptContext]
    and python-jose's [jws], are not part of the repository.  Their entry
    points are the fields of the class [Env], and their documented contracts
    are the hypotheses of the section of properties; the instance [Ideal.env]
    shows that the contracts are satisfiable and gives concrete runs. *)

From Stdlib Require Import ZArith Lia.
From stdpp Require Import base option list strings countable gmap fin_maps.

(** ** Python strings and UTF-8 *)

(** A Python [str]: the sequence of its Unicode code points. *)
Abbreviation pystr := (list Z).

(** The [str] of an ASCII literal of the source. *)
Definition py (s : string) : pystr :=
  (λ a, Z.of_nat (Ascii.nat_of_ascii a)) <$> String.list_ascii_of_string s.

(** Exceptions that can leave the functions of [auth.py]. *)
Record HTTPException := mkHTTPException {
  status_code : Z;
  detail : string;
  headers : option (list (string * string))
}.

(** python-jose's exception classes; [ExpiredSignatureError] and
    [JWTClaimsError] are subclasses of [JWTError]. *)
Inductive jwt_exception := JWTError | ExpiredSignatureError | JWTClaimsError.

Inductive exn :=
| EHTTP (e : HTTPException)
| EJWT (e : jwt_exception)
| UnicodeEncodeError
| UnknownHashError
| PasswordValueError
| ValueError
| TypeError
| KeyError
| OverflowError
| ValidationError.

Inductive result (A : Type) :=
| Ok (a : A)
| Raise (e : exn).
Arguments Ok {A} a.
Arguments Raise {A} e.

(** Sequencing: the first exception raised ends the computation. *)
#[global] Instance result_ret : MRet result := λ A a, Ok a.
#[global] Instance result_bind : MBind result := λ A B k r,
  match r with
  | Ok a => k a
  | Raise e => Raise e
  end.

Definition is_surrogate (c : Z) : bool := (0xD800 <=? c)%Z && (c <=? 0xDFFF)%Z.

(** [chr(c).encode('utf-8')]; lone surrogates cannot be encoded. *)
Definition utf8_encode_char (c : Z) : result (list Z) :=
  if (c <? 0)%Z || (0x10FFFF <? c)%Z || is_surrogate c then Raise UnicodeEncodeError
  else if (c <? 0x80)%Z then Ok [c]
  else if (c <? 0x800)%Z then
    Ok [Z.lor 0xC0 (Z.shiftr c 6); Z.lor 0x80 (Z.land c 0x3F)]
  else if (c <? 0x10000)%Z then
    Ok [Z.lor 0xE0 (Z.shiftr c 12);
        Z.lor 0x80 (Z.land (Z.shiftr c 6) 0x3F);
        Z.lor 0x80 (Z.land c 0x3F)]
  else
    Ok [Z.lor 0xF0 (Z.shiftr c 18);
        Z.lor 0x80 (Z.land (Z.shiftr c 12) 0x3F);
        Z.lor 0x80 (Z.land (Z.shiftr c 6) 0x3F);
        Z.lor 0x80 (Z.land c 0x3F)].

(** [s.encode('utf-8')] *)
Fixpoint utf8_encode (s : pystr) : result (list Z) :=
  match s with
  | [] => Ok []
  | c :: s' =>
      bs ← utf8_encode_char c;
      bs' ← utf8_encode s';
      Ok (bs ++ bs')
  end.

Definition is_continuation (b : Z) : bool := (0x80 <=? b)%Z && (b <? 0xC0)%Z.

Definition cp2 (ch ch2 : Z) : Z :=
  Z.lor (Z.shiftl (Z.land ch 0x1F) 6) (Z.land ch2 0x3F).
Definition cp3 (ch ch2 ch3 : Z) : Z :=
  Z.lor (Z.shiftl (Z.land ch 0x0F) 12)
    (Z.lor (Z.shiftl (Z.land ch2 0x3F) 6) (Z.land ch3 0x3F)).
Definition cp4 (ch ch2 ch3 ch4 : Z) : Z :=
  Z.lor (Z.shiftl (Z.land ch 0x07) 18)
    (Z.lor (Z.shiftl (Z.land ch2 0x3F) 12)
       (Z.lor (Z.shiftl (Z.land ch3 0x3F) 6) (Z.land ch4 0x3F))).

(** [bs.decode('utf-8', errors='ignore')], after CPython's decoder: an invalid
    start byte is skipped alone, an invalid continuation byte ends the skipped
    range just before it, and a sequence cut off by the end of the data is
    skipped whole. *)
Fixpoint utf8_decode_ignore (bs : list Z) : pystr :=
  match bs with
  | [] => []
  | ch :: r1 =>
    if (ch <? 0x80)%Z then ch :: utf8_decode_ignore r1
    else if (ch <? 0xC2)%Z then utf8_decode_ignore r1
    else if (ch <? 0xE0)%Z then
      match r1 with
      | [] => []
      | ch2 :: r2 =>
        if is_continuation ch2 then cp2 ch ch2 :: utf8_decode_ignore r2
        else utf8_decode_ignore r1
      end
    else if (ch <? 0xF0)%Z then
      match r1 with
      | [] => []
      | ch2 :: r2 =>
        if negb (is_continuation ch2)
           || (if (ch2 <? 0xA0)%Z then (ch =? 0xE0)%Z else (ch =? 0xED)%Z)
        then utf8_decode_ignore r1
        else
          match r2 with
          | [] => []
          | ch3 :: r3 =>
            if is_continuation ch3 then cp3 ch ch2 ch3 :: utf8_decode_ignore r3
            else utf8_decode_ignore r2
          end
      end
    else if (ch <? 0xF5)%Z then
      match r1 with
      | [] => []
      | ch2 :: r2 =>
        if negb (is_continuation ch2)
           || (if (ch2 <? 0x90)%Z then (ch =? 0xF0)%Z else (ch =? 0xF4)%Z)
        then utf8_decode_ignore r1
        else
          match r2 with
          | [] => []
          | ch3 :: r3 =>
            if negb (is_continuation ch3) then utf8_decode_ignore r2
            else
              match r3 with
              | [] => []
              | ch4 :: r4 =>
                if is_continuation ch4
                then cp4 ch ch2 ch3 ch4 :: utf8_decode_ignore r4
                else utf8_decode_ignore r3
              end
          end
      end
    else utf8_decode_ignore r1
  end.

(** ** Dates, durations and claim values *)

(** A [datetime] is its number of microseconds since the epoch and a
    [timedelta] a number of microseconds, so their arithmetic is exact. *)
Abbreviation datetime := Z (only parsing).
Abbreviation timedelta := Z (only parsing).

(** [datetime.min] and [datetime.max] in UTC. *)
Definition datetime_min : Z := (-62135596800000000)%Z.
Definition datetime_max : Z := 253402300799999999%Z.

(** [t + d] on a [datetime]; results outside years 1..9999 overflow. *)
Definition datetime_add (t : datetime) (d : timedelta) : result datetime :=
  let r := (t + d)%Z in
  if (datetime_min <=? r)%Z && (r <=? datetime_max)%Z then Ok r
  else Raise OverflowError.

(** [timedelta(minutes=m)] *)
Definition timedelta_minutes (m : Z) : timedelta := (m * 60000000)%Z.

(** [calendar.timegm(t.utctimetuple())]: whole seconds, microseconds dropped. *)
Definition timegm (t : datetime) : Z := (t `div` 1000000)%Z.

(** Values of the dictionary handed to [jwt.encode]. *)
Inductive pyval :=
| VStr (s : pystr)
| VInt (n : Z)
| VDatetime (t : datetime).

(** Values of a decoded JSON payload; [JOther] keeps the text of a value that
    is neither a string nor an integer. *)
Inductive json :=
| JStr (s : pystr)
| JInt (n : Z)
| JOther (raw : pystr).

#[global] Instance pyval_eq_dec : EqDecision pyval.
Proof. solve_decision. Defined.
#[global] Instance json_eq_dec : EqDecision json.
Proof. solve_decision. Defined.
#[global] Instance HTTPException_eq_dec : EqDecision HTTPException.
Proof. solve_decision. Defined.

#[global] Instance json_countable : Countable json.
Proof.
  refine (inj_countable'
    (λ j, match j with
          | JStr s => inl s
          | JInt n => inr (inl n)
          | JOther r => inr (inr r)
          end)
    (λ x, match x with
          | inl s => JStr s
          | inr (inl n) => JInt n
          | inr (inr r) => JOther r
          end) _).
  by intros [].
Defined.

(** The interpreter's limit on converting an [int] to decimal text:
    [sys.int_info.default_max_str_digits]. *)
Definition int_max_str_digits : Z := 4300%Z.

(** [json.dumps] of one value: a [datetime] is not serializable, and neither
    is an [int] of more than [int_max_str_digits] digits, whose conversion
    to text raises. *)
Definition to_json (v : pyval) : option json :=
  match v with
  | VStr s => Some (JStr s)
  | VInt n =>
      if (Z.abs n <? 10 ^ int_max_str_digits)%Z then Some (JInt n) else None
  | VDatetime _ => None
  end.

(** jose's [encode] replaces a [datetime] under a time claim by its
    timestamp. *)
Definition timestamp_claim (v : pyval) : pyval :=
  match v with
  | VDatetime t => VInt (timegm t)
  | _ => v
  end.

(** [s.startswith(p)] *)
Definition startswith (p s : pystr) : bool := bool_decide (take (length p) s = p).

(** ** What the module takes from its environment

    The signing secret and the entry points of the two libraries. *)
Class Env := {
  (** [SECRET_KEY], read from the process environment when the module is
      loaded. *)
  SECRET_KEY : pystr;
  (** [pwd_context.hash], given the random bytes it draws for the salt. *)
  pwd_context_hash : list Z → pystr → result pystr;
  (** [pwd_context.verify] *)
  pwd_context_verify : pystr → pystr → result bool;
  (** Whether the context attributes a digest to its one scheme, bcrypt. *)
  pwd_context_identify : pystr → bool;
  (** jose's [jws.sign] for [ALGORITHM] = HS256. *)
  jws_sign : gmap string json → pystr → pystr;
  (** jose's [jws.verify] for HS256 followed by the parsing of the payload
      into a JSON object; [None] when the library raises ([JWSError], an
      invalid payload). *)
  jws_verify : pystr → pystr → option (gmap string json);
  (** Python's [int(v)] on a decoded JSON value. *)
  py_int : json → result Z
}.

(** ** Ideal instances of the two libraries

    A digest that records the salt and the 72-byte key, and a token that
    records the claims and the signing key, both written out in binary
    digits.  They stand for a hash without collisions and a signature that
    cannot be forged. *)
Module Ideal.

Fixpoint pos_bits (p : positive) : pystr :=
  match p with
  | xH => []
  | xO q => 48%Z :: pos_bits q
  | xI q => 49%Z :: pos_bits q
  end.

Fixpoint bits_pos (s : pystr) : option positive :=
  match s with
  | [] => Some xH
  | c :: r =>
      if (c =? 48)%Z then xO <$> bits_pos r
      else if (c =? 49)%Z then xI <$> bits_pos r
      else None
  end.

(** The identifiers passlib's bcrypt handler recognises. *)
Definition identify (d : pystr) : bool :=
  startswith (py "$2$") d || startswith (py "$2a$") d || startswith (py "$2x$") d
  || startswith (py "$2y$") d || startswith (py "$2b$") d.

Definition has_nul (b : list Z) : bool := bool_decide (0%Z ∈ b).

Definition hash (salt : list Z) (secret : pystr) : result pystr :=
  b ← utf8_encode secret;
  if has_nul b then Raise PasswordValueError
  else Ok (py "$2b$12$" ++ pos_bits (encode (salt, take 72 b))).

Definition parse (d : pystr) : option (list Z * list Z) :=
  if startswith (py "$2b$12$") d
  then p ← bits_pos (drop 7 d); decode p
  else None.

Definition verify (secret d : pystr) : result bool :=
  if negb (identify d) then Raise UnknownHashError
  else match parse d with
       | None => Raise ValueError
       | Some (_, key) =>
           b ← utf8_encode secret;
           if has_nul b then Raise PasswordValueError
           else Ok (bool_decide (take 72 b = key))
       end.

Definition sign (claims : gmap string json) (key : pystr) : pystr :=
  pos_bits (encode (claims, key)).

Definition unsign (token key : pystr) : option (gmap string json) :=
  p ← bits_pos token;
  ck ← decode p;
  if bool_decide (ck.2 = key) then Some ck.1 else None.

(** A conversion that meets the contract asked of [int]: the integer of an
    integer value, and an error for anything else. *)
Definition to_int (v : json) : result Z :=
  match v with
  | JInt n => Ok n
  | JStr _ => Raise ValueError
  | JOther _ => Raise TypeError
  end.

Definition env : Env := {|
  SECRET_KEY := py "placeholder_secret_key";
  pwd_context_hash := hash;
  pwd_context_verify := verify;
  pwd_context_identify := identify;
  jws_sign := sign;
  jws_verify := unsign;
  py_int := to_int
|}.

End Ideal.

(** ** Dictionaries and the module-level store *)

(** [d[k]] *)
Definition getitem {K V} `{Countable K} (k : K) (d : gmap K V) : result V :=
  match d !! k with
  | Some v => Ok v
  | None => Raise KeyError
  end.

(** [k in d] *)
Definition contains {K V} `{Countable K} (k : K) (d : gmap K V) : bool :=
  bool_decide (is_Some (d !! k)).

(** [d.values()] *)
Definition values {K V} `{Countable K} (d : gmap K V) : list V := (map_to_list d).*2.

(** [TEMP_USER_DATABASE]: username to the stored dictionary of the user. *)
Abbreviation store := (gmap pystr (gmap string pystr)).

(** A computation over the store: its outcome and the store it leaves.  An
    exception keeps the writes done before it. *)
Definition Db (A : Type) : Type := store → result A * store.

#[global] Instance Db_ret : MRet Db := λ A a db, (Ok a, db).
#[global] Instance Db_bind : MBind Db := λ A B k m db,
  match m db with
  | (Ok a, db') => k a db'
  | (Raise e, db') => (Raise e, db')
  end.

Definition raise {A} (e : exn) : Db A := λ db, (Raise e, db).
Definition lift {A} (r : result A) : Db A := λ db, (r, db).
Definition read_db : Db store := λ db, (Ok db, db).
(** [TEMP_USER_DATABASE[k] = v] *)
Definition setitem (k : pystr) (v : gmap string pystr) : Db unit :=
  λ db, (Ok (), <[k := v]> db).

(** [try: body except JWTError: handler] *)
Definition except_JWTError {A} (body handler : result A) : result A :=
  match body with
  | Raise (EJWT _) => handler
  | r => r
  end.

(** ** Request and response models *)

Record User := mkUser { username : pystr; email : pystr }.

Record UserSignup := mkUserSignup {
  signup_username : pystr;
  signup_email : pystr;
  signup_password : pystr
}.

Record OAuth2PasswordRequestForm := mkForm {
  form_username : pystr;
  form_password : pystr
}.

Record TokenData := mkTokenData { token_username : option pystr }.

(** [User] built from keyword arguments [kw]: the declared fields are read,
    any other key is ignored. *)
Definition User_init (kw : gmap string pystr) : result User :=
  match kw !! "username", kw !! "email" with
  | Some u, Some e => Ok (mkUser u e)
  | _, _ => Raise ValidationError
  end.

(** The body of the response built from a [User]: its fields by name. *)
Definition model_dump (u : User) : gmap string pystr :=
  {[ "username" := username u; "email" := email u ]}.

(** [TokenData(username=v)] for a value taken from a decoded payload. *)
Definition TokenData_init (v : json) : result TokenData :=
  match v with
  | JStr s => Ok (mkTokenData (Some s))
  | _ => Raise ValidationError
  end.

Definition ACCESS_TOKEN_EXPIRE_MINUTES : Z := 60.

Definition username_registered : HTTPException :=
  mkHTTPException 400 "Username already registered" None.
Definition email_registered : HTTPException :=
  mkHTTPException 400 "Email already registered" None.
Definition incorrect_login : HTTPException :=
  mkHTTPException 401 "Incorrect username or password" None.
Definition credentials_exception : HTTPException :=
  mkHTTPException 401 "Could not validate credentials"
    (Some [("WWW-Authenticate", "Bearer")]).

(** Two passwords for the 72-byte boundary: seventy-one letters a followed by
    e-acute, whose two-byte encoding straddles the boundary, and the
    seventy-one letters alone. *)
Definition straddling_password : pystr := replicate 71 97%Z ++ [233%Z].
Definition seventy_one_a : pystr := replicate 71 97%Z.

(** ** The functions of [auth.py] *)

Section Auth.

Context {env : Env}.

(** [auth.py], lines 25-26: the context is called on the arguments as they
    come, and nothing it raises is caught. *)
Definition verify_password (plain_password hashed_password : pystr) : result bool :=
  pwd_context_verify plain_password hashed_password.

(** [auth.py], lines 28-32: the encoded password is cut at 72 bytes and
    decoded again, dropping what does not decode, before it is hashed. *)
Definition get_password_hash (salt : list Z) (password : pystr) : result pystr :=
  encoded ← utf8_encode password;
  let password_bytes := take 72 encoded in
  let truncated_password := utf8_decode_ignore password_bytes in
  pwd_context_hash salt truncated_password.

(** *** python-jose's [jwt.encode] and [jwt.decode]

    Library code, written out after the library: [encode] turns the
    [datetime] of a time claim into its timestamp and signs the JSON of the
    claims; [decode] verifies the signature and then validates the registered
    claims in the order [iat], [nbf], [exp], [aud], [sub], [jti], [at_hash],
    with no leeway, no expected audience, issuer or subject, and no access
    token.  Every refusal is a [JWTError] or one of its subclasses. *)

Definition jwt_encode (claims : gmap string pyval) (key : pystr) : result pystr :=
  let claims :=
    alter timestamp_claim "nbf"
      (alter timestamp_claim "iat" (alter timestamp_claim "exp" claims)) in
  if bool_decide (map_Forall (λ _ v, is_Some (to_json v)) claims)
  then Ok (jws_sign (omap to_json claims) key)
  else Raise TypeError.

(** [try: int(v) except ValueError: raise JWTClaimsError] *)
Definition claim_int (v : json) : result Z :=
  match py_int v with
  | Raise ValueError => Raise (EJWT JWTClaimsError)
  | r => r
  end.

Definition validate_iat (claims : gmap string json) : result unit :=
  match claims !! "iat" with
  | None => Ok ()
  | Some v => _ ← claim_int v; Ok ()
  end.

Definition validate_nbf (now : datetime) (claims : gmap string json) : result unit :=
  match claims !! "nbf" with
  | None => Ok ()
  | Some v =>
      nbf ← claim_int v;
      if (timegm now <? nbf)%Z then Raise (EJWT JWTClaimsError) else Ok ()
  end.

Definition validate_exp (now : datetime) (claims : gmap string json) : result unit :=
  match claims !! "exp" with
  | None => Ok ()
  | Some v =>
      exp ← claim_int v;
      if (exp <? timegm now)%Z then Raise (EJWT ExpiredSignatureError) else Ok ()
  end.

(** With no expected audience or access token given to [decode], a token
    that carries [aud] or [at_hash] is refused. *)
Definition validate_absent (name : string) (claims : gmap string json) : result unit :=
  match claims !! name with
  | None => Ok ()
  | Some _ => Raise (EJWT JWTClaimsError)
  end.

(** [sub] and [jti] must be strings when present. *)
Definition validate_str (name : string) (claims : gmap string json) : result unit :=
  match claims !! name with
  | None | Some (JStr _) => Ok ()
  | Some _ => Raise (EJWT JWTClaimsError)
  end.

(** [jwt.decode(token, key, algorithms=[ALGORITHM])] at clock reading [now]. *)
Definition jwt_decode (token key : pystr) (now : datetime) : result (gmap string json) :=
  match jws_verify token key with
  | None => Raise (EJWT JWTError)
  | Some claims =>
      _ ← validate_iat claims;
      _ ← validate_nbf now claims;
      _ ← validate_exp now claims;
      _ ← validate_absent "aud" claims;
      _ ← validate_str "sub" claims;
      _ ← validate_str "jti" claims;
      _ ← validate_absent "at_hash" claims;
      Ok claims
  end.

(** *** The token issuer *)

(** [auth.py], lines 35-44, at clock reading [now].  [if expires_delta:]
    takes the default both for [None] and for a zero [timedelta], which is
    falsy. *)
Definition create_access_token (data : gmap string pyval)
    (expires_delta : option timedelta) (now : datetime) : result pystr :=
  let to_encode := data in
  expire ←
    match expires_delta with
    | Some d =>
        if (d =? 0)%Z
        then datetime_add now (timedelta_minutes ACCESS_TOKEN_EXPIRE_MINUTES)
        else datetime_add now d
    | None => datetime_add now (timedelta_minutes ACCESS_TOKEN_EXPIRE_MINUTES)
    end;
  let to_encode := <["exp" := VDatetime expire]> to_encode in
  jwt_encode to_encode SECRET_KEY.

(** *** The three operations *)

(** [auth.py], lines 81-104; [salt] is the randomness the hasher draws.  The
    log line is left out. *)
Definition signup (user : UserSignup) (salt : list Z) : Db User :=
  db ← read_db;
  if contains (signup_username user) db
  then raise (EHTTP username_registered)
  else
    db ← read_db;
    if existsb (λ u, bool_decide (u !! "email" = Some (signup_email user))) (values db)
    then raise (EHTTP email_registered)
    else
      hashed_password ← lift (get_password_hash salt (signup_password user));
      let new_user_data : gmap string pystr :=
        {[ "username" := signup_username user;
           "email" := signup_email user;
           "hashed_password" := hashed_password ]} in
      _ ← setitem (signup_username user) new_user_data;
      lift (User_init new_user_data).

(** [auth.py], lines 107-128, at clock reading [now]. *)
Definition login_for_access_token (form_data : OAuth2PasswordRequestForm)
    (now : datetime) : Db (gmap string pystr) :=
  let username := form_username form_data in
  let password := form_password form_data in
  db ← read_db;
  if negb (contains username db)
  then raise (EHTTP incorrect_login)
  else
    user_data ← lift (getitem username db);
    hashed_password ← lift (getitem "hashed_password" user_data);
    ok ← lift (verify_password password hashed_password);
    if negb ok
    then raise (EHTTP incorrect_login)
    else
      let access_token_expires := timedelta_minutes ACCESS_TOKEN_EXPIRE_MINUTES in
      access_token ←
        lift (create_access_token {[ "sub" := VStr username ]}
                (Some access_token_expires) now);
      mret ({[ "access_token" := access_token; "token_type" := py "bearer" ]}
            : gmap string pystr).

(** [auth.py], lines 131-149, at clock reading [now].  The [raise] for a
    missing subject sits inside the [try], but an [HTTPException] is no
    [JWTError] and passes the handler unchanged. *)
Definition get_current_user (token : pystr) (now : datetime) : Db (gmap string pystr) :=
  token_data ← lift (except_JWTError
    (payload ← jwt_decode token SECRET_KEY now;
     match payload !! "sub" with
     | None => Raise (EHTTP credentials_exception)
     | Some username => TokenData_init username
     end)
    (Raise (EHTTP credentials_exception)));
  db ← read_db;
  match token_username token_data with
  | None => raise (EHTTP credentials_exception)
  | Some username =>
      if negb (contains username db)
      then raise (EHTTP credentials_exception)
      else lift (getitem username db)
  end.

(** *** Histories of the service *)

Inductive request :=
| Register (user : UserSignup) (salt : list Z)
| Login (form_data : OAuth2PasswordRequestForm) (now : datetime)
| ResolveIdentity (token : pystr) (now : datetime).

(** The store a request leaves behind. *)
Definition handle (r : request) (db : store) : store :=
  match r with
  | Register user salt => (signup user salt db).2
  | Login form_data now => (login_for_access_token form_data now db).2
  | ResolveIdentity token now => (get_current_user token now db).2
  end.

Inductive reachable : store → Prop :=
| reachable_empty : reachable ∅
| reachable_step db r : reachable db → reachable (handle r db).

(** *** What the store holds *)

(** Some stored user has email [e]. *)
Definition email_taken (e : pystr) (db : store) : Prop :=
  ∃ k r, db !! k = Some r ∧ r !! "email" = Some e.

(** Every record is the three-field dictionary [signup] builds, filed under
    its own username. *)
Definition well_formed (db : store) : Prop :=
  ∀ k r, db !! k = Some r →
    ∃ e h, r = {[ "username" := k; "email" := e; "hashed_password" := h ]}.

(** Two records filed under different keys differ in username and in
    email. *)
Definition unique_principals (db : store) : Prop :=
  ∀ k1 k2 r1 r2, k1 ≠ k2 → db !! k1 = Some r1 → db !! k2 = Some r2 →
    r1 !! "username" ≠ r2 !! "username" ∧ r1 !! "email" ≠ r2 !! "email".

(** No two records share an email. *)
Definition email_keys (db : store) : Prop :=
  ∀ k1 k2 r1 r2 e, db !! k1 = Some r1 → db !! k2 = Some r2 →
    r1 !! "email" = Some e → r2 !! "email" = Some e → k1 = k2.

(** *** Why [get_current_user] refuses a token *)

(** The causes of a refusal: the codec raises one of its errors (a token
    that does not parse or whose signature does not match raises
    [JWTError], an expired one [ExpiredSignatureError], an invalid
    registered claim [JWTClaimsError]); the payload names no subject; the
    subject is not in the store. *)
Inductive rejection (token : pystr) (now : datetime) (db : store) : Prop :=
| rejected_by_codec (e : jwt_exception) :
    jwt_decode token SECRET_KEY now = Raise (EJWT e) →
    rejection token now db
| rejected_no_subject (payload : gmap string json) :
    jwt_decode token SECRET_KEY now = Ok payload →
    payload !! "sub" = None →
    rejection token now db
| rejected_unknown_subject (payload : gmap string json) (u : pystr) :
    jwt_decode token SECRET_KEY now = Ok payload →
    payload !! "sub" = Some (JStr u) →
    db !! u = None →
    rejection token now db.

End Auth.

(** ** Sample data *)

Definition alice : UserSignup :=
  mkUserSignup (py "alice") (py "a@x.com") (py "correct horse").
Definition alice_again : UserSignup :=
  mkUserSignup (py "alice") (py "b@y.com") (py "battery staple").
Definition alice_twice : UserSignup :=
  mkUserSignup (py "alice") (py "a@x.com") (py "battery staple").
Definition bob_same_email : UserSignup :=
  mkUserSignup (py "bob") (py "a@x.com") (py "battery staple").
Definition bob : UserSignup :=
  mkUserSignup (py "bob") (py "b@y.com") (py "battery staple").

(** The store after [alice] has signed up, with the ideal libraries. *)
Definition db_alice : store := (signup (env := Ideal.env) alice [1; 2; 3]%Z ∅).2.

(** Alice's stored record and the digest in it. *)
Definition alice_record : gmap string pystr := default ∅ (db_alice !! py "alice").
Definition alice_digest : pystr := default [] (alice_record !! "hashed_password").

(** The digest the ideal context stores for [straddling_password]. *)
Definition straddling_digest : pystr :=
  match get_password_hash (env := Ideal.env) [7]%Z straddling_password with
  | Ok d => d
  | Raise _ => []
  end.

(** 14 November 2023, 22:13:20 UTC and half a second. *)
Definition sample_now : Z := 1700000000500000%Z.

(** A history with two registrations, a login and an identity resolution. *)
Definition db_history : store :=
  handle (env := Ideal.env) (ResolveIdentity (py "garbage") sample_now)
    (handle (env := Ideal.env) (Register bob [4; 5; 6]%Z)
       (handle (env := Ideal.env)
          (Login (mkForm (py "alice") (py "correct horse")) sample_now)
          (handle (env := Ideal.env) (Register alice [1; 2; 3]%Z) ∅))).

(** Tokens for alice under the ideal signature: one that expired a second
    before [sample_now], one that lasts an hour more, one whose expiry second
    is the second of [sample_now], one signed with another key, and one for a
    subject nobody registered. *)
Definition expired_token : pystr :=
  Ideal.sign {[ "exp" := JInt 1699999999; "sub" := JStr (py "alice") ]}
    (py "placeholder_secret_key").
Definition fresh_token : pystr :=
  Ideal.sign {[ "exp" := JInt 1700003600; "sub" := JStr (py "alice") ]}
    (py "placeholder_secret_key").
Definition expiring_token : pystr :=
  Ideal.sign {[ "exp" := JInt 1700000000; "sub" := JStr (py "alice") ]}
    (py "placeholder_secret_key").
Definition forged_token : pystr :=
  Ideal.sign {[ "exp" := JInt 1700003600; "sub" := JStr (py "alice") ]}
    (py "another key").
Definition stranger_token : pystr :=
  Ideal.sign {[ "exp" := JInt 1700003600; "sub" := JStr (py "mallory") ]}
    (py "placeholder_secret_key").

(** Two passwords that share their first 72 bytes, a password with a lone
    surrogate and a registration with it, a token without expiry, and a
    dictionary of claims of several kinds. *)
Definition long_password_x : pystr := replicate 72 97%Z ++ [120%Z].
Definition long_password_yz : pystr := replicate 72 97%Z ++ [121%Z; 122%Z].
Definition surrogate_password : pystr := [112%Z; 55296%Z].
Definition carol : UserSignup :=
  mkUserSignup (py "carol") (py "c@z.com") surrogate_password.
Definition eternal_token : pystr :=
  Ideal.sign {[ "sub" := JStr (py "alice") ]} (py "placeholder_secret_key").

(** The password "a", NUL, "b", as a form field sends it when the body holds
    [a%00b]. *)
Definition nul_password : pystr := [97%Z; 0%Z; 98%Z].

(** A token signed with the key of the service whose payload is
    [{"exp": 1699999999, "iat": null, "sub": "mallory"}]: it expired a second
    before [sample_now], nobody registered its subject, and its [iat] is
    JSON's [null]. *)
Definition null_iat_claims : gmap string json :=
  {[ "exp" := JInt 1699999999; "iat" := JOther (py "null");
     "sub" := JStr (py "mallory") ]}.
Definition null_iat_token : pystr :=
  Ideal.sign null_iat_claims (py "placeholder_secret_key").

(** * Properties *)

(** ** UTF-8: decoding undoes encoding *)

Lemma lor_disjoint (hi y k : Z) :
  (0 ≤ k)%Z → (0 ≤ y < 2 ^ k)%Z → Z.lor (hi * 2 ^ k) y = (hi * 2 ^ k + y)%Z.
Proof.
  intros Hk Hy.
  assert (Z.land (hi * 2 ^ k) y = 0%Z) as Hland.
  { apply Z.bits_inj'. intros n Hn. rewrite Z.land_spec, Z.bits_0.
    destruct (Z.lt_ge_cases n k) as [Hlt|Hge].
    - rewrite <- Z.shiftl_mul_pow2 by done. rewrite Z.shiftl_spec_low by done. done.
    - rewrite <- (Z.mod_small y (2 ^ k)) by done.
      rewrite Z.mod_pow2_bits_high by lia. apply andb_false_r. }
  rewrite <- Z.lxor_lor by done. symmetry. by apply Z.add_nocarry_lxor.
Qed.

Lemma lor_byte (hi k x : Z) (base : Z) :
  base = (hi * 2 ^ k)%Z → (0 ≤ k)%Z → (0 ≤ x < 2 ^ k)%Z → Z.lor base x = (base + x)%Z.
Proof. intros -> Hk Hx. by apply lor_disjoint. Qed.

Lemma land_low (a k : Z) (mask : Z) :
  mask = Z.ones k → (0 ≤ k)%Z → Z.land a mask = (a mod 2 ^ k)%Z.
Proof. intros -> Hk. by apply Z.land_ones. Qed.


(** The bytes of an encoded character, in arithmetic. *)
Lemma utf8_encode_char_bytes (c : Z) (bs : list Z) :
  utf8_encode_char c = Ok bs →
  ((0 ≤ c < 128)%Z ∧ bs = [c])
  ∨ ((128 ≤ c < 2048)%Z ∧ bs = [192 + c `div` 64; 128 + c `mod` 64]%Z)
  ∨ ((2048 ≤ c < 65536)%Z ∧ ¬ (55296 ≤ c ≤ 57343)%Z
     ∧ bs = [224 + c `div` 4096; 128 + (c `div` 64) `mod` 64; 128 + c `mod` 64]%Z)
  ∨ ((65536 ≤ c ≤ 1114111)%Z
     ∧ bs = [240 + c `div` 262144; 128 + (c `div` 4096) `mod` 64;
             128 + (c `div` 64) `mod` 64; 128 + c `mod` 64]%Z).
Proof.
  unfold utf8_encode_char.
  destruct (Z.ltb_spec c 0); [done|].
  destruct (Z.ltb_spec 1114111 c); [done|].
  destruct (is_surrogate c) eqn:Hs; [done|].
  assert (¬ (55296 ≤ c ≤ 57343)%Z) as Hns.
  { unfold is_surrogate in Hs. apply andb_false_iff in Hs as [Hs|Hs].
    - apply Z.leb_gt in Hs. lia.
    - apply Z.leb_gt in Hs. lia. }
  assert (∀ a, Z.lor 128 (Z.land a 63) = 128 + a `mod` 64)%Z as Hcont.
  { intros a. rewrite (land_low a 6 63)%Z by done.
    apply (lor_byte 2 6)%Z; [done|lia|]. apply Z.mod_pos_bound. lia. }
  assert (∀ k, (0 ≤ k)%Z → c ≫ k = c `div` 2 ^ k)%Z as Hshift
    by (intros k Hk; by apply Z.shiftr_div_pow2).
  simpl.
  destruct (Z.ltb_spec c 128) as [H1|H1].
  { intros [= <-]. left. split; [lia|done]. }
  destruct (Z.ltb_spec c 2048) as [H2|H2].
  { intros [= <-]. right. left. split; [lia|].
    rewrite Hcont, (Hshift 6%Z) by lia. change (2 ^ 6)%Z with 64%Z.
    rewrite (lor_byte 6 5 (c `div` 64) 192)%Z; [done|done|lia|change (2 ^ 5)%Z with 32%Z; Z.div_mod_to_equations; lia]. }
  destruct (Z.ltb_spec c 65536) as [H3|H3].
  { intros [= <-]. right. right. left. split; [lia|]. split; [done|].
    rewrite !Hcont, (Hshift 6%Z), (Hshift 12%Z) by lia.
    change (2 ^ 6)%Z with 64%Z. change (2 ^ 12)%Z with 4096%Z.
    rewrite (lor_byte 14 4 (c `div` 4096) 224)%Z;
      [done|done|lia|change (2 ^ 4)%Z with 16%Z; Z.div_mod_to_equations; lia]. }
  intros [= <-]. right. right. right. split; [lia|].
  rewrite !Hcont, (Hshift 6%Z), (Hshift 12%Z), (Hshift 18%Z) by lia.
  change (2 ^ 6)%Z with 64%Z. change (2 ^ 12)%Z with 4096%Z.
  change (2 ^ 18)%Z with 262144%Z.
  rewrite (lor_byte 30 3 (c `div` 262144) 240)%Z;
    [done|done|lia|change (2 ^ 3)%Z with 8%Z; Z.div_mod_to_equations; lia].
Qed.

Lemma is_continuation_byte (y : Z) : (0 ≤ y < 64)%Z → is_continuation (128 + y) = true.
Proof.
  intros Hy. unfold is_continuation.
  destruct (Z.leb_spec 128 (128 + y)); [|lia].
  destruct (Z.ltb_spec (128 + y) 192); [done|lia].
Qed.

Lemma land_byte (base x k mask hi : Z) :
  mask = Z.ones k → base = (hi * 2 ^ k)%Z → (0 ≤ k)%Z → (0 ≤ x < 2 ^ k)%Z →
  Z.land (base + x) mask = x.
Proof.
  intros -> -> Hk Hx. rewrite Z.land_ones by done.
  rewrite Z.add_comm, Z.mod_add by lia. by apply Z.mod_small.
Qed.

Lemma cp2_bytes (x y : Z) :
  (0 ≤ x < 32)%Z → (0 ≤ y < 64)%Z → cp2 (192 + x) (128 + y) = (x * 64 + y)%Z.
Proof.
  intros Hx Hy. unfold cp2.
  rewrite (land_byte 192 x 5 31 6), (land_byte 128 y 6 63 2)%Z by (done || lia).
  rewrite Z.shiftl_mul_pow2 by lia. by apply lor_disjoint.
Qed.

Lemma cp3_bytes (x2 x1 x0 : Z) :
  (0 ≤ x2 < 16)%Z → (0 ≤ x1 < 64)%Z → (0 ≤ x0 < 64)%Z →
  cp3 (224 + x2) (128 + x1) (128 + x0) = (x2 * 4096 + x1 * 64 + x0)%Z.
Proof.
  intros H2 H1 H0. unfold cp3.
  rewrite (land_byte 224 x2 4 15 14), (land_byte 128 x1 6 63 2),
    (land_byte 128 x0 6 63 2)%Z by (done || lia).
  rewrite !Z.shiftl_mul_pow2 by lia.
  rewrite (lor_disjoint x1 x0 6) by (done || lia).
  rewrite (lor_disjoint x2 _ 12) by (done || lia). lia.
Qed.

Lemma cp4_bytes (x3 x2 x1 x0 : Z) :
  (0 ≤ x3 < 8)%Z → (0 ≤ x2 < 64)%Z → (0 ≤ x1 < 64)%Z → (0 ≤ x0 < 64)%Z →
  cp4 (240 + x3) (128 + x2) (128 + x1) (128 + x0)
  = (x3 * 262144 + x2 * 4096 + x1 * 64 + x0)%Z.
Proof.
  intros H3 H2 H1 H0. unfold cp4.
  rewrite (land_byte 240 x3 3 7 30), (land_byte 128 x2 6 63 2),
    (land_byte 128 x1 6 63 2), (land_byte 128 x0 6 63 2)%Z by (done || lia).
  rewrite !Z.shiftl_mul_pow2 by lia.
  rewrite (lor_disjoint x1 x0 6) by (done || lia).
  rewrite (lor_disjoint x2 _ 12) by (done || lia).
  rewrite (lor_disjoint x3 _ 18) by (done || lia). lia.
Qed.

Ltac decide_ltb :=
  repeat match goal with
         | |- context [(?a <? ?b)%Z] => destruct (Z.ltb_spec a b); try lia
         | |- context [(?a =? ?b)%Z] => destruct (Z.eqb_spec a b); try lia
         end.

(** One step of the decoder, by the class of the lead byte. *)
Lemma utf8_decode_ignore_lead1 (ch : Z) (r1 : list Z) :
  (ch < 128)%Z → utf8_decode_ignore (ch :: r1) = ch :: utf8_decode_ignore r1.
Proof. intros Hch. cbn [utf8_decode_ignore]. by decide_ltb. Qed.

Lemma utf8_decode_ignore_lead2 (ch : Z) (r1 : list Z) :
  (194 ≤ ch < 224)%Z →
  utf8_decode_ignore (ch :: r1) =
  match r1 with
  | [] => []
  | ch2 :: r2 =>
      if is_continuation ch2 then cp2 ch ch2 :: utf8_decode_ignore r2
      else utf8_decode_ignore r1
  end.
Proof. intros Hch. cbn [utf8_decode_ignore]. by decide_ltb. Qed.

Lemma utf8_decode_ignore_lead3 (ch : Z) (r1 : list Z) :
  (224 ≤ ch < 240)%Z →
  utf8_decode_ignore (ch :: r1) =
  match r1 with
  | [] => []
  | ch2 :: r2 =>
      if negb (is_continuation ch2)
         || (if (ch2 <? 160)%Z then (ch =? 224)%Z else (ch =? 237)%Z)
      then utf8_decode_ignore r1
      else
        match r2 with
        | [] => []
        | ch3 :: r3 =>
            if is_continuation ch3 then cp3 ch ch2 ch3 :: utf8_decode_ignore r3
            else utf8_decode_ignore r2
        end
  end.
Proof.
  intros Hch. cbn [utf8_decode_ignore].
  destruct (Z.ltb_spec ch 128); [lia|]. destruct (Z.ltb_spec ch 194); [lia|].
  destruct (Z.ltb_spec ch 224); [lia|]. destruct (Z.ltb_spec ch 240); [done|lia].
Qed.

Lemma utf8_decode_ignore_lead4 (ch : Z) (r1 : list Z) :
  (240 ≤ ch < 245)%Z →
  utf8_decode_ignore (ch :: r1) =
  match r1 with
  | [] => []
  | ch2 :: r2 =>
      if negb (is_continuation ch2)
         || (if (ch2 <? 144)%Z then (ch =? 240)%Z else (ch =? 244)%Z)
      then utf8_decode_ignore r1
      else
        match r2 with
        | [] => []
        | ch3 :: r3 =>
            if negb (is_continuation ch3) then utf8_decode_ignore r2
            else
              match r3 with
              | [] => []
              | ch4 :: r4 =>
                  if is_continuation ch4
                  then cp4 ch ch2 ch3 ch4 :: utf8_decode_ignore r4
                  else utf8_decode_ignore r3
              end
        end
  end.
Proof.
  intros Hch. cbn [utf8_decode_ignore].
  destruct (Z.ltb_spec ch 128); [lia|]. destruct (Z.ltb_spec ch 194); [lia|].
  destruct (Z.ltb_spec ch 224); [lia|]. destruct (Z.ltb_spec ch 240); [lia|].
  destruct (Z.ltb_spec ch 245); [done|lia].
Qed.

(** Decoding undoes the encoding of one character, whatever follows. *)
Lemma utf8_decode_encode_char (c : Z) (bs rest : list Z) :
  utf8_encode_char c = Ok bs →
  utf8_decode_ignore (bs ++ rest) = c :: utf8_decode_ignore rest.
Proof.
  intros [[Hc ->]|[[Hc ->]|[(Hc & Hns & ->)|[Hc ->]]]]%utf8_encode_char_bytes.
  - apply utf8_decode_ignore_lead1. lia.
  - cbn [app]. rewrite utf8_decode_ignore_lead2 by (Z.div_mod_to_equations; lia).
    rewrite is_continuation_byte by (Z.div_mod_to_equations; lia).
    rewrite cp2_bytes by (Z.div_mod_to_equations; lia).
    f_equal. Z.div_mod_to_equations. lia.
  - cbn [app]. rewrite utf8_decode_ignore_lead3 by (Z.div_mod_to_equations; lia).
    rewrite !is_continuation_byte by (Z.div_mod_to_equations; lia).
    rewrite cp3_bytes by (Z.div_mod_to_equations; lia).
    cbn [negb orb].
    destruct (Z.ltb_spec (128 + (c `div` 64) `mod` 64) 160);
      [destruct (Z.eqb_spec (224 + c `div` 4096) 224)
      |destruct (Z.eqb_spec (224 + c `div` 4096) 237)].
    all: try (f_equal; Z.div_mod_to_equations; lia).
    all: exfalso; Z.div_mod_to_equations; lia.
  - cbn [app]. rewrite utf8_decode_ignore_lead4 by (Z.div_mod_to_equations; lia).
    rewrite !is_continuation_byte by (Z.div_mod_to_equations; lia).
    rewrite cp4_bytes by (Z.div_mod_to_equations; lia).
    cbn [negb orb].
    destruct (Z.ltb_spec (128 + (c `div` 4096) `mod` 64) 144);
      [destruct (Z.eqb_spec (240 + c `div` 262144) 240)
      |destruct (Z.eqb_spec (240 + c `div` 262144) 244)].
    all: try (f_equal; Z.div_mod_to_equations; lia).
    all: exfalso; Z.div_mod_to_equations; lia.
Qed.

Lemma utf8_decode_encode (s : pystr) (b : list Z) :
  utf8_encode s = Ok b → utf8_decode_ignore b = s.
Proof.
  revert b. induction s as [|c s IH]; intros b; simpl.
  - by intros [= <-].
  - unfold mbind, result_bind.
    destruct (utf8_encode_char c) as [bs|] eqn:Hc; [|done].
    destruct (utf8_encode s) as [bs'|]; [|done].
    intros [= <-]. rewrite (utf8_decode_encode_char c bs bs' Hc). f_equal. by apply IH.
Qed.

Section Properties.

Context {env : Env}.

(** ** Contracts of the libraries *)

(** A digest the context cannot attribute to bcrypt is refused with
    [UnknownHashError]. *)
Hypothesis pwd_context_verify_unknown : ∀ secret d,
  pwd_context_identify d = false →
  pwd_context_verify secret d = Raise UnknownHashError.

(** bcrypt reads at most 72 bytes of the encoded secret: a secret is
    accepted only if it agrees on them with the hashed one. *)
Hypothesis pwd_context_verify_sound : ∀ salt secret secret' d,
  pwd_context_hash salt secret' = Ok d →
  pwd_context_verify secret d = Ok true →
  ∃ b b', utf8_encode secret = Ok b ∧ utf8_encode secret' = Ok b'
          ∧ take 72 b = take 72 b'.

(** A secret of at most 72 bytes verifies against its own digest. *)
Hypothesis pwd_context_verify_complete : ∀ salt secret d b,
  pwd_context_hash salt secret = Ok d →
  utf8_encode secret = Ok b → length b ≤ 72 →
  pwd_context_verify secret d = Ok true.

(** passlib's bcrypt handler refuses a secret that holds a NUL byte: once
    the digest is parsed, [_calc_checksum] raises [NullPasswordError], a
    [PasswordValueError]. *)
Hypothesis pwd_context_verify_nul : ∀ salt secret secret' d b,
  pwd_context_hash salt secret' = Ok d →
  utf8_encode secret = Ok b → 0%Z ∈ b →
  pwd_context_verify secret d = Raise PasswordValueError.

(** passlib knows nothing of the web framework: what it raises is never an
    [HTTPException]. *)
Hypothesis pwd_context_hash_not_http : ∀ salt secret e,
  pwd_context_hash salt secret ≠ Raise (EHTTP e).

(** A signed token verifies under the key that signed it and yields the
    claims that were signed. *)
Hypothesis jws_verify_sign : ∀ claims key,
  jws_verify (jws_sign claims key) key = Some claims.

Hypothesis py_int_JInt : ∀ n, py_int (JInt n) = Ok n.

(** What the builtin [int] raises. *)
Hypothesis py_int_raises : ∀ v e,
  py_int v = Raise e → e = ValueError ∨ e = TypeError ∨ e = OverflowError.

(** ** Registration *)

Lemma existsb_email (e : pystr) (db : store) :
  existsb (λ u, bool_decide (u !! "email" = Some e)) (values db) = true
  ↔ email_taken e db.
Proof.
  rewrite existsb_exists. unfold email_taken, values. split.
  - intros (r & Hin & Hr). apply list_elem_of_In in Hin.
    apply list_elem_of_fmap in Hin as ([k r'] & -> & Hin).
    apply elem_of_map_to_list in Hin. apply bool_decide_eq_true in Hr.
    by exists k, r'.
  - intros (k & r & Hk & Hr). exists r. split.
    + apply list_elem_of_In, list_elem_of_fmap. exists (k, r). split; [done|].
      by apply elem_of_map_to_list.
    + by apply bool_decide_eq_true.
Qed.

Lemma contains_true {V} (k : pystr) (d : gmap pystr V) :
  contains k d = true ↔ is_Some (d !! k).
Proof. unfold contains. apply bool_decide_eq_true. Qed.

Lemma contains_false {V} (k : pystr) (d : gmap pystr V) :
  contains k d = false ↔ d !! k = None.
Proof.
  unfold contains. rewrite bool_decide_eq_false. symmetry. apply eq_None_not_Some.
Qed.

(** The three ways [signup] can go. *)
Lemma signup_cases (user : UserSignup) (salt : list Z) (db : store) :
  (is_Some (db !! signup_username user)
   ∧ signup user salt db = (Raise (EHTTP username_registered), db))
  ∨ (db !! signup_username user = None ∧ email_taken (signup_email user) db
     ∧ signup user salt db = (Raise (EHTTP email_registered), db))
  ∨ (db !! signup_username user = None ∧ ¬ email_taken (signup_email user) db
     ∧ ((∃ e, get_password_hash salt (signup_password user) = Raise e
              ∧ signup user salt db = (Raise e, db))
        ∨ (∃ h, get_password_hash salt (signup_password user) = Ok h
                ∧ signup user salt db =
                  (Ok (mkUser (signup_username user) (signup_email user)),
                   <[signup_username user :=
                       {[ "username" := signup_username user;
                          "email" := signup_email user;
                          "hashed_password" := h ]}]> db)))).
Proof.
  unfold signup, mbind, Db_bind, read_db, raise, lift, setitem.
  destruct (contains (signup_username user) db) eqn:Hc.
  { left. split; [by apply contains_true|done]. }
  right. apply contains_false in Hc.
  destruct (existsb _ (values db)) eqn:He.
  { left. apply existsb_email in He. done. }
  right. split; [done|]. split.
  { intros Ht. apply existsb_email in Ht. congruence. }
  destruct (get_password_hash salt (signup_password user)) as [h|e].
  - right. exists h. split; [done|]. done.
  - left. by exists e.
Qed.

Lemma utf8_encode_char_raises c e :
  utf8_encode_char c = Raise e → e = UnicodeEncodeError.
Proof.
  unfold utf8_encode_char. repeat case_match; congruence.
Qed.

Lemma utf8_encode_raises s e : utf8_encode s = Raise e → e = UnicodeEncodeError.
Proof.
  induction s as [|c s IH]; simpl; [done|].
  unfold mbind, result_bind.
  destruct (utf8_encode_char c) eqn:Hc.
  - destruct (utf8_encode s); [done|]. intros [= <-]. by apply IH.
  - intros [= <-]. by eapply utf8_encode_char_raises.
Qed.

Lemma get_password_hash_not_http salt password e :
  get_password_hash salt password ≠ Raise (EHTTP e).
Proof.
  unfold get_password_hash, mbind, result_bind.
  destruct (utf8_encode password) as [b|e'] eqn:Hb.
  - apply pwd_context_hash_not_http.
  - apply utf8_encode_raises in Hb as ->. done.
Qed.

(** C6: [signup] tests the username before the email and stops at the first
    conflict.  A taken username is reported as "Username already
    registered" whatever the email is, so also when the email is taken too;
    "Email already registered" is the outcome exactly when the username is
    free and the email is taken. *)
Theorem signup_username_before_email (user : UserSignup) (salt : list Z) (db : store) :
  (is_Some (db !! signup_username user) →
     (signup user salt db).1 = Raise (EHTTP username_registered))
  ∧ ((signup user salt db).1 = Raise (EHTTP email_registered)
     ↔ db !! signup_username user = None ∧ email_taken (signup_email user) db).
Proof.
  destruct (signup_cases user salt db)
    as [[Hu ->]|[(Hu & He & ->)|(Hu & He & [(e & Hh & ->)|(h & Hh & ->)])]]; simpl.
  - split; [done|]. split; [done|]. intros [Hn _]. rewrite Hn in Hu.
    by destruct Hu.
  - split; [|done]. rewrite Hu. by intros [].
  - split; [rewrite Hu; by intros []|]. split; [|by intros []].
    intros [= ->]. by apply get_password_hash_not_http in Hh.
  - split; [rewrite Hu; by intros []|]. split; [done|by intros []].
Qed.

(** C9: a successful [signup] answers with the public view of the new user:
    a body with the two keys username and email, holding the values of the
    request, and no hashed_password (or password) key. *)
Theorem signup_returns_public_view (user : UserSignup) (salt : list Z)
    (db db' : store) (u : User) :
  signup user salt db = (Ok u, db') →
  model_dump u =
    {[ "username" := signup_username user; "email" := signup_email user ]}
  ∧ dom (model_dump u) = ({[ "username"; "email" ]} : gset string)
  ∧ model_dump u !! "hashed_password" = None
  ∧ model_dump u !! "password" = None.
Proof.
  intros Hs.
  assert (u = mkUser (signup_username user) (signup_email user)) as ->.
  { destruct (signup_cases user salt db)
      as [[_ H]|[(_ & _ & H)|(_ & _ & [(e & _ & H)|(h & _ & H)])]];
      rewrite H in Hs; congruence. }
  unfold model_dump; simpl. split; [done|]. split; [|done].
  rewrite dom_insert_L, dom_singleton_L. set_solver.
Qed.

(** C10: a [signup] that raises, with either conflict or anything else,
    leaves the store as it found it. *)
Theorem signup_failure_keeps_store (user : UserSignup) (salt : list Z)
    (db : store) (e : exn) :
  (signup user salt db).1 = Raise e → (signup user salt db).2 = db.
Proof.
  destruct (signup_cases user salt db)
    as [[_ ->]|[(_ & _ & ->)|(_ & _ & [(e' & _ & ->)|(h & _ & ->)])]];
    simpl; done.
Qed.

(** ** The store over a history *)

Lemma login_keeps_store (form_data : OAuth2PasswordRequestForm) (now : Z) (db : store) :
  (login_for_access_token form_data now db).2 = db.
Proof.
  unfold login_for_access_token, mbind, mret, Db_bind, Db_ret, read_db, raise, lift.
  destruct (contains (form_username form_data) db); [|done].
  cbn [negb].
  destruct (getitem (form_username form_data) db) as [r|]; [|done].
  destruct (getitem "hashed_password" r) as [h|]; [|done].
  destruct (verify_password (form_password form_data) h) as [[]|]; [|done|done].
  cbn [negb].
  by destruct (create_access_token _ _ now).
Qed.

Lemma get_current_user_keeps_store (token : pystr) (now : Z) (db : store) :
  (get_current_user token now db).2 = db.
Proof.
  unfold get_current_user, mbind, Db_bind, read_db, raise, lift.
  repeat case_match; simplify_eq/=; done.
Qed.

Lemma well_formed_empty : well_formed ∅.
Proof. intros k r Hk. by rewrite lookup_empty in Hk. Qed.

Lemma email_keys_empty : email_keys ∅.
Proof. intros k1 k2 r1 r2 e Hk. by rewrite lookup_empty in Hk. Qed.

Lemma signup_well_formed user salt db :
  well_formed db → well_formed (signup user salt db).2.
Proof.
  intros Hwf.
  destruct (signup_cases user salt db)
    as [[_ ->]|[(_ & _ & ->)|(_ & _ & [(e' & _ & ->)|(h & _ & ->)])]];
    simpl; try done.
  intros k r. rewrite lookup_insert. case_decide as Hk.
  - intros [= <-]. subst k. eauto.
  - apply Hwf.
Qed.

Lemma signup_email_keys user salt db :
  email_keys db → email_keys (signup user salt db).2.
Proof.
  intros Hek.
  destruct (signup_cases user salt db)
    as [[_ ->]|[(_ & _ & ->)|(_ & Hfree & [(e' & _ & ->)|(h & _ & ->)])]];
    simpl; try done.
  intros k1 k2 r1 r2 e. rewrite !lookup_insert.
  case_decide as H1; case_decide as H2.
  - congruence.
  - intros [= <-] H2' He1 He2. exfalso. apply Hfree.
    exists k2, r2. split; [done|].
    rewrite lookup_insert_ne in He1 by done.
    rewrite lookup_insert_eq in He1. congruence.
  - intros H1' [= <-] He1 He2. exfalso. apply Hfree.
    exists k1, r1. split; [done|].
    rewrite lookup_insert_ne in He2 by done.
    rewrite lookup_insert_eq in He2. congruence.
  - apply Hek.
Qed.

Lemma reachable_invariant db : reachable db → well_formed db ∧ email_keys db.
Proof.
  induction 1 as [|db r _ [IHwf IHek]].
  - split; [apply well_formed_empty|apply email_keys_empty].
  - destruct r as [user salt|form_data now|token now]; simpl.
    + split; [by apply signup_well_formed|by apply signup_email_keys].
    + by rewrite login_keeps_store.
    + by rewrite get_current_user_keeps_store.
Qed.

Lemma invariant_unique db : well_formed db → email_keys db → unique_principals db.
Proof.
  intros Hwf Hek k1 k2 r1 r2 Hne H1 H2.
  destruct (Hwf _ _ H1) as (e1 & h1 & ->).
  destruct (Hwf _ _ H2) as (e2 & h2 & ->).
  split.
  - rewrite !lookup_insert_eq. congruence.
  - intros He. apply Hne. apply (Hek _ _ _ _ e1 H1 H2).
    + rewrite lookup_insert_ne by done. by rewrite lookup_insert_eq.
    + rewrite <- He. rewrite lookup_insert_ne by done. by rewrite lookup_insert_eq.
Qed.

(** The usernames, and the emails, of the stored records listed without
    repetition. *)
Lemma unique_NoDup (field : string) (db : store) :
  (∀ k1 k2 r1 r2, db !! k1 = Some r1 → db !! k2 = Some r2 →
     r1 !! field = r2 !! field → k1 = k2) →
  NoDup ((λ r : gmap string pystr, r !! field) <$> values db).
Proof.
  intros Hinj. unfold values. rewrite <- list_fmap_compose.
  apply NoDup_fmap_2_strong; [|apply NoDup_map_to_list].
  intros [k1 r1] [k2 r2] H1 H2 Hf. simpl in Hf.
  apply elem_of_map_to_list in H1, H2.
  assert (k1 = k2) as -> by eauto. congruence.
Qed.

(** C7: in every store reached from the empty one by any sequence of
    [signup], [login_for_access_token] and [get_current_user] calls, two
    different records differ both in username and in email; listed over all
    stored records, no username and no email occurs twice. *)
Theorem reachable_unique_principals (db : store) :
  reachable db →
  unique_principals db
  ∧ NoDup ((λ r : gmap string pystr, r !! "username") <$> values db)
  ∧ NoDup ((λ r : gmap string pystr, r !! "email") <$> values db).
Proof.
  intros Hr. destruct (reachable_invariant db Hr) as [Hwf Hek].
  pose proof (invariant_unique db Hwf Hek) as Hu.
  split; [done|]. split; apply unique_NoDup; intros k1 k2 r1 r2 H1 H2 Hf;
    destruct (decide (k1 = k2)) as [|Hne]; try done;
    destruct (Hu k1 k2 r1 r2 Hne H1 H2) as [Hun Hem]; done.
Qed.

(** ** Login *)

(** Where [verify_password] returns [False], a login for a username that
    is not registered and a login for a registered username end in the same
    outcome, a 401 with detail "Incorrect username or password" and no
    headers, and leave the store alone. *)
Lemma login_failures_identical (db : store) (u1 p1 u2 p2 : pystr)
    (now1 now2 : Z) (r : gmap string pystr) (h : pystr) :
  db !! u1 = None →
  db !! u2 = Some r → r !! "hashed_password" = Some h →
  verify_password p2 h = Ok false →
  login_for_access_token (mkForm u1 p1) now1 db = (Raise (EHTTP incorrect_login), db)
  ∧ login_for_access_token (mkForm u2 p2) now2 db = (Raise (EHTTP incorrect_login), db).
Proof.
  intros H1 H2 Hh Hv.
  unfold login_for_access_token, mbind, Db_bind, read_db, raise, lift, getitem; simpl.
  split.
  - apply contains_false in H1. by rewrite H1.
  - assert (contains u2 db = true) as -> by (apply contains_true; eauto).
    simpl. by rewrite H2, Hh, Hv.
Qed.

(** The digest [get_password_hash] returns is one the context made. *)
Lemma get_password_hash_digest (salt : list Z) (password h : pystr) :
  get_password_hash salt password = Ok h →
  ∃ secret, pwd_context_hash salt secret = Ok h.
Proof.
  unfold get_password_hash, mbind, result_bind.
  destruct (utf8_encode password) as [b|x]; [eauto|done].
Qed.

(** C3: the two login failures are not the same outcome for every wrong
    password.  [login_for_access_token] calls [verify_password] outside any
    [try], so with a wrong password that holds a NUL character the login for
    a registered username ends in passlib's [PasswordValueError], while the
    login for a username that is not registered ends in the 401: the caller
    can tell whether the username exists. *)
Theorem login_failure_reveals_registration (db : store) (u1 u2 p : pystr)
    (now1 now2 : Z) (r : gmap string pystr) (h : pystr)
    (salt : list Z) (password : pystr) (b : list Z) :
  db !! u1 = None →
  db !! u2 = Some r → r !! "hashed_password" = Some h →
  get_password_hash salt password = Ok h →
  p ≠ password →
  utf8_encode p = Ok b → 0%Z ∈ b →
  login_for_access_token (mkForm u1 p) now1 db = (Raise (EHTTP incorrect_login), db)
  ∧ login_for_access_token (mkForm u2 p) now2 db = (Raise PasswordValueError, db).
Proof.
  intros H1 H2 Hh Hd _ Hb Hnul.
  assert (verify_password p h = Raise PasswordValueError) as Hv.
  { destruct (get_password_hash_digest _ _ _ Hd) as [secret Hs].
    by apply (pwd_context_verify_nul salt p secret h b). }
  unfold login_for_access_token, mbind, Db_bind, read_db, raise, lift, getitem; simpl.
  split.
  - apply contains_false in H1. by rewrite H1.
  - assert (contains u2 db = true) as -> by (apply contains_true; eauto).
    simpl. by rewrite H2, Hh, Hv.
Qed.

(** ** Identity resolution *)

(** The three branches of [get_current_user] that refuse a token (the codec
    raising one of its own errors, a payload without subject, a subject that
    is not registered) give the caller the one [credentials_exception]. *)
Lemma rejection_is_opaque (token : pystr) (now : Z) (db : store) :
  rejection token now db →
  get_current_user token now db = (Raise (EHTTP credentials_exception), db).
Proof.
  unfold get_current_user, mbind, Db_bind, read_db, raise, lift, except_JWTError.
  intros [e He|payload Hp Hs|payload u Hp Hs Hu].
  - unfold mbind, result_bind. by rewrite He.
  - unfold mbind, result_bind. by rewrite Hp, Hs.
  - unfold mbind, result_bind. rewrite Hp, Hs. simpl.
    apply contains_false in Hu. by rewrite Hu.
Qed.

(** C4: not every refused token gets the one outcome.  [get_current_user]
    catches [JWTError] only, and the codec converts [iat] with [int] before
    it looks at [exp], turning only [ValueError] into an error of its own:
    an expired token signed with the key whose [iat] is a value [int] raises
    [TypeError] for, such as JSON's [null], leaves [get_current_user] as
    that [TypeError] whatever the store holds, not as
    [credentials_exception]. *)
Theorem expired_token_unconvertible_iat (token : pystr) (now : Z) (db : store)
    (claims : gmap string json) (e : Z) (v : json) :
  jws_verify token SECRET_KEY = Some claims →
  claims !! "exp" = Some (JInt e) → (e < timegm now)%Z →
  claims !! "iat" = Some v → py_int v = Raise TypeError →
  get_current_user token now db = (Raise TypeError, db).
Proof.
  intros Hv _ _ Hi Hint.
  assert (jwt_decode token SECRET_KEY now = Raise TypeError) as Hd.
  { unfold jwt_decode. rewrite Hv. unfold validate_iat. rewrite Hi.
    unfold claim_int. by rewrite Hint. }
  unfold get_current_user, mbind, Db_bind, read_db, raise, lift, except_JWTError.
  unfold mbind, result_bind. by rewrite Hd.
Qed.


Lemma claim_int_not_http (v : json) (e : HTTPException) :
  claim_int v ≠ Raise (EHTTP e).
Proof.
  unfold claim_int. destruct (py_int v) as [n|x] eqn:Hv; [done|].
  destruct (py_int_raises _ _ Hv) as [->|[->| ->]]; done.
Qed.

Lemma bind_not_http {A B} (r : result A) (k : A → result B) (e : HTTPException) :
  r ≠ Raise (EHTTP e) → (∀ a, k a ≠ Raise (EHTTP e)) → r ≫= k ≠ Raise (EHTTP e).
Proof.
  intros Hr Hk. destruct r as [a|x]; [apply Hk|].
  unfold mbind, result_bind. intros [= ->]. by apply Hr.
Qed.

Lemma validate_iat_not_http (c : gmap string json) (e : HTTPException) :
  validate_iat c ≠ Raise (EHTTP e).
Proof.
  unfold validate_iat. destruct (c !! "iat") as [v|]; [|done].
  apply bind_not_http; [apply claim_int_not_http|done].
Qed.

Lemma validate_nbf_not_http (now : Z) (c : gmap string json) (e : HTTPException) :
  validate_nbf now c ≠ Raise (EHTTP e).
Proof.
  unfold validate_nbf. destruct (c !! "nbf") as [v|]; [|done].
  apply bind_not_http; [apply claim_int_not_http|].
  intros nbf. by destruct (timegm now <? nbf)%Z.
Qed.

Lemma validate_exp_not_http (now : Z) (c : gmap string json) (e : HTTPException) :
  validate_exp now c ≠ Raise (EHTTP e).
Proof.
  unfold validate_exp. destruct (c !! "exp") as [v|]; [|done].
  apply bind_not_http; [apply claim_int_not_http|].
  intros exp. by destruct (exp <? timegm now)%Z.
Qed.

Lemma validate_absent_not_http (name : string) (c : gmap string json) (e : HTTPException) :
  validate_absent name c ≠ Raise (EHTTP e).
Proof. unfold validate_absent. by destruct (c !! name). Qed.

Lemma validate_str_not_http (name : string) (c : gmap string json) (e : HTTPException) :
  validate_str name c ≠ Raise (EHTTP e).
Proof. unfold validate_str. by destruct (c !! name) as [[]|]. Qed.

Lemma jwt_decode_not_http (token key : pystr) (now : Z) (e : HTTPException) :
  jwt_decode token key now ≠ Raise (EHTTP e).
Proof.
  unfold jwt_decode. destruct (jws_verify token key) as [c|]; [|done].
  apply bind_not_http; [apply validate_iat_not_http|intros _].
  apply bind_not_http; [apply validate_nbf_not_http|intros _].
  apply bind_not_http; [apply validate_exp_not_http|intros _].
  apply bind_not_http; [apply validate_absent_not_http|intros _].
  apply bind_not_http; [apply validate_str_not_http|intros _].
  apply bind_not_http; [apply validate_str_not_http|intros _].
  apply bind_not_http; [apply validate_absent_not_http|intros _].
  done.
Qed.

(** The only [HTTPException] [get_current_user] raises is
    [credentials_exception]. *)
Lemma get_current_user_http (token : pystr) (now : Z) (db : store) (e : HTTPException) :
  (get_current_user token now db).1 = Raise (EHTTP e) → e = credentials_exception.
Proof.
  unfold get_current_user, mbind, Db_bind, read_db, raise, lift, except_JWTError,
    getitem, TokenData_init.
  unfold mbind, result_bind.
  destruct (jwt_decode token SECRET_KEY now) as [payload|x] eqn:Hd.
  - repeat case_match; simplify_eq/=; try done; congruence.
  - destruct x; simpl; try congruence.
    by apply jwt_decode_not_http in Hd.
Qed.

(** ** The token codec *)

(** The timestamp of a [datetime] is far below the limit on the digits of
    an [int], so it is always serializable. *)
Lemma to_json_timestamp (t : Z) :
  (datetime_min ≤ t ≤ datetime_max)%Z →
  to_json (VInt (timegm t)) = Some (JInt (timegm t)).
Proof.
  intros Hrange. unfold to_json, int_max_str_digits.
  assert (10 ^ 12 ≤ 10 ^ 4300)%Z as Hpow by (apply Z.pow_le_mono_r; lia).
  change (10 ^ 12)%Z with 1000000000000%Z in Hpow.
  assert (Z.abs (timegm t) < 1000000000000)%Z as Habs.
  { unfold timegm, datetime_min, datetime_max in *.
    apply Z.abs_lt. split.
    - apply Z.lt_le_trans with (-62135596800)%Z; [lia|].
      apply Z.div_le_lower_bound; lia.
    - apply Z.div_lt_upper_bound; lia. }
  remember (10 ^ 4300)%Z as limit.
  destruct (Z.ltb_spec (Z.abs (timegm t)) limit); [done|lia].
Qed.

Lemma jwt_encode_issued (u : pystr) (t : Z) (key : pystr) :
  (datetime_min ≤ t ≤ datetime_max)%Z →
  jwt_encode (<["exp" := VDatetime t]> {[ "sub" := VStr u ]}) key
  = Ok (jws_sign {[ "exp" := JInt (timegm t); "sub" := JStr u ]} key).
Proof.
  intros Hrange. unfold jwt_encode.
  rewrite alter_insert_eq.
  rewrite !alter_insert_ne by done.
  rewrite !alter_singleton_ne by done.
  cbn [timestamp_claim].
  rewrite bool_decide_eq_true_2.
  - by rewrite (omap_insert_Some _ _ _ _ (JInt (timegm t)))
      by (by apply to_json_timestamp);
      rewrite (omap_singleton_Some _ _ _ (JStr u)).
  - apply map_Forall_insert_2; [by rewrite to_json_timestamp|].
    apply map_Forall_singleton. by eexists.
Qed.


Lemma jwt_decode_issued (u : pystr) (e : Z) (key : pystr) (now : Z) :
  jwt_decode (jws_sign {[ "exp" := JInt e; "sub" := JStr u ]} key) key now
  = if (e <? timegm now)%Z then Raise (EJWT ExpiredSignatureError)
    else Ok {[ "exp" := JInt e; "sub" := JStr u ]}.
Proof.
  unfold jwt_decode. rewrite jws_verify_sign.
  unfold validate_iat, validate_nbf, validate_exp, validate_absent, validate_str.
  repeat (first [rewrite lookup_insert_eq | rewrite lookup_insert_ne by done
                | rewrite lookup_singleton_eq | rewrite lookup_singleton_ne by done]).
  unfold claim_int. rewrite py_int_JInt. simpl.
  unfold mbind, result_bind.
  by destruct (e <? timegm now)%Z.
Qed.

Lemma timegm_mono (t1 t2 : Z) : (t1 ≤ t2)%Z → (timegm t1 ≤ timegm t2)%Z.
Proof. intros H. unfold timegm. apply Z.div_le_mono; lia. Qed.

Lemma timegm_add_seconds (t n : Z) :
  timegm (t + n * 1000000) = (timegm t + n)%Z.
Proof. unfold timegm. apply Z.div_add. lia. Qed.




(** ** Expiry *)

(** A payload the codec accepts has not passed its expiry second. *)
Lemma jwt_decode_not_expired (token key : pystr) (now : Z)
    (payload : gmap string json) (v : json) (e : Z) :
  jwt_decode token key now = Ok payload →
  payload !! "exp" = Some v → py_int v = Ok e →
  (timegm now ≤ e)%Z.
Proof.
  unfold jwt_decode. destruct (jws_verify token key) as [c|]; [|done].
  unfold mbind, result_bind.
  destruct (validate_iat c); [|done].
  destruct (validate_nbf now c); [|done].
  destruct (validate_exp now c) eqn:Hexp; [|done].
  intros Hrest Hv Hi.
  assert (payload = c) as -> by (repeat case_match; congruence).
  unfold validate_exp, claim_int, mbind, result_bind in Hexp.
  rewrite Hv, Hi in Hexp.
  destruct (Z.ltb_spec e (timegm now)); [done|lia].
Qed.

Lemma validate_nbf_mono (now1 now2 : Z) (c : gmap string json) :
  (now1 ≤ now2)%Z → validate_nbf now1 c = Ok () → validate_nbf now2 c = Ok ().
Proof.
  intros Hle. apply timegm_mono in Hle.
  unfold validate_nbf, mbind, result_bind.
  destruct (c !! "nbf") as [v|]; [|done].
  destruct (claim_int v) as [nbf|]; [|done].
  destruct (Z.ltb_spec (timegm now1) nbf); [done|].
  destruct (Z.ltb_spec (timegm now2) nbf); [lia|done].
Qed.

Lemma validate_nbf_not_expired (now : Z) (c : gmap string json) :
  validate_nbf now c ≠ Raise (EJWT ExpiredSignatureError).
Proof.
  unfold validate_nbf, claim_int, mbind, result_bind.
  destruct (c !! "nbf") as [v|]; [|done].
  destruct (py_int v) as [n|x] eqn:Hv.
  - by destruct (timegm now <? n)%Z.
  - destruct (py_int_raises _ _ Hv) as [->|[->| ->]]; done.
Qed.

(** The expiry check either raises the same at a later instant, or it
    passed and raises [ExpiredSignatureError] or passes again. *)
Lemma validate_exp_later (now1 now2 : Z) (c : gmap string json) :
  (now1 ≤ now2)%Z →
  match validate_exp now1 c with
  | Raise x => validate_exp now2 c = Raise x
  | Ok _ => validate_exp now2 c = Ok ()
            ∨ validate_exp now2 c = Raise (EJWT ExpiredSignatureError)
  end.
Proof.
  intros Hle. apply timegm_mono in Hle.
  unfold validate_exp, mbind, result_bind.
  destruct (c !! "exp") as [v|]; [|by left].
  destruct (claim_int v) as [e|]; [|done].
  destruct (Z.ltb_spec e (timegm now1)); destruct (Z.ltb_spec e (timegm now2));
    try lia; auto.
Qed.

(** Once the codec refuses a token as expired it does so at every later
    instant. *)
Lemma jwt_decode_expired_later (token key : pystr) (now1 now2 : Z) :
  (now1 ≤ now2)%Z →
  jwt_decode token key now1 = Raise (EJWT ExpiredSignatureError) →
  jwt_decode token key now2 = Raise (EJWT ExpiredSignatureError).
Proof.
  intros Hle. unfold jwt_decode.
  destruct (jws_verify token key) as [c|]; [|done].
  unfold mbind, result_bind.
  destruct (validate_iat c) as [[]|]; [|done].
  destruct (validate_nbf now1 c) as [[]|x] eqn:Hnbf.
  2:{ intros [= ->]. by apply validate_nbf_not_expired in Hnbf. }
  rewrite (validate_nbf_mono now1 now2 c Hle Hnbf).
  pose proof (validate_exp_later now1 now2 c Hle) as Hexp.
  destruct (validate_exp now1 c) as [[]|x].
  - unfold validate_absent, validate_str. intros Hrest.
    destruct Hexp as [-> | ->]; [|done].
    repeat case_match; simplify_eq/=; done.
  - rewrite Hexp. done.
Qed.

(** A token issued with a lifetime of minus one second or less is refused
    as expired from the instant it is issued. *)
Lemma negative_lifetime_expired (u : pystr) (d now now' : Z) :
  (d ≤ -1000000)%Z → (now ≤ now')%Z →
  (datetime_min ≤ now + d ≤ datetime_max)%Z →
  ∃ token,
    create_access_token {[ "sub" := VStr u ]} (Some d) now = Ok token
    ∧ jwt_decode token SECRET_KEY now' = Raise (EJWT ExpiredSignatureError).
Proof.
  intros Hd Hle Hrange. eexists. split.
  - unfold create_access_token, datetime_add.
    destruct (Z.eqb_spec d 0); [lia|].
    destruct (Z.leb_spec datetime_min (now + d)); [|lia].
    destruct (Z.leb_spec (now + d) datetime_max); [|lia].
    simpl. unfold mbind, result_bind. by apply jwt_encode_issued.
  - rewrite jwt_decode_issued.
    assert (timegm (now + d) < timegm now')%Z.
    { apply timegm_mono in Hle.
      assert (timegm (now + d) ≤ timegm (now + (-1) * 1000000))%Z
        by (apply timegm_mono; lia).
      rewrite timegm_add_seconds in *. lia. }
    destruct (Z.ltb_spec (timegm (now + d)) (timegm now')); [done|lia].
Qed.

(** C5, amended: the codec never accepts a token at an instant whose second
    lies after the expiry second of the payload; a token it has refused as
    expired is refused as expired at every later instant; and a token
    issued with a lifetime of minus one second or less is refused as expired
    from the instant of issue on. *)
Theorem expired_token_stays_refused :
  (∀ token now payload v e,
     jwt_decode token SECRET_KEY now = Ok payload →
     payload !! "exp" = Some v → py_int v = Ok e →
     (timegm now ≤ e)%Z)
  ∧ (∀ token now1 now2,
       (now1 ≤ now2)%Z →
       jwt_decode token SECRET_KEY now1 = Raise (EJWT ExpiredSignatureError) →
       jwt_decode token SECRET_KEY now2 = Raise (EJWT ExpiredSignatureError))
  ∧ (∀ u d now now',
       (d ≤ -1000000)%Z → (now ≤ now')%Z →
       (datetime_min ≤ now + d ≤ datetime_max)%Z →
       ∃ token,
         create_access_token {[ "sub" := VStr u ]} (Some d) now = Ok token
         ∧ jwt_decode token SECRET_KEY now' = Raise (EJWT ExpiredSignatureError)).
Proof.
  split; [|split].
  - intros token now payload v e. apply jwt_decode_not_expired.
  - intros token now1 now2. apply jwt_decode_expired_later.
  - apply negative_lifetime_expired.
Qed.

(** ** The password hasher *)

Lemma verify_password_delegates (plain_password hashed_password : pystr) :
  verify_password plain_password hashed_password
  = pwd_context_verify plain_password hashed_password.
Proof. reflexivity. Qed.

(** C8, amended: [verify_password] hands the digest to the context and
    catches nothing; for a digest the context cannot attribute to bcrypt the
    outcome is the context's [UnknownHashError], not [False], and a login
    against a record holding such a digest ends in that error as well. *)
Theorem verify_password_unknown_digest (plain_password hashed_password : pystr) :
  pwd_context_identify hashed_password = false →
  verify_password plain_password hashed_password = Raise UnknownHashError
  ∧ ∀ (db : store) (u : pystr) (r : gmap string pystr) (now : Z),
      db !! u = Some r → r !! "hashed_password" = Some hashed_password →
      login_for_access_token (mkForm u plain_password) now db
      = (Raise UnknownHashError, db).
Proof.
  intros Hid.
  assert (verify_password plain_password hashed_password = Raise UnknownHashError)
    as Hv by (unfold verify_password; by apply pwd_context_verify_unknown).
  split; [exact Hv|]. intros db u r now Hu Hh.
  unfold login_for_access_token, mbind, Db_bind, read_db, raise, lift, getitem; simpl.
  assert (contains u db = true) as -> by (apply contains_true; eauto).
  simpl. by rewrite Hu, Hh, Hv.
Qed.

Lemma utf8_encode_straddling :
  utf8_encode straddling_password = Ok (replicate 71 97%Z ++ [195%Z; 169%Z]).
Proof. vm_compute. reflexivity. Qed.

Lemma utf8_encode_seventy_one_a : utf8_encode seventy_one_a = Ok (replicate 71 97%Z).
Proof. vm_compute. reflexivity. Qed.

(** What [get_password_hash] hands to the context for the straddling
    password: the seventy-one letters, the cut character dropped. *)
Lemma get_password_hash_straddling (salt : list Z) :
  get_password_hash salt straddling_password = pwd_context_hash salt seventy_one_a.
Proof.
  unfold get_password_hash. rewrite utf8_encode_straddling.
  unfold mbind, result_bind.
  replace (utf8_decode_ignore (take 72 (replicate 71 97%Z ++ [195%Z; 169%Z])))
    with seventy_one_a by (vm_compute; reflexivity).
  done.
Qed.

(** C1 at the password of seventy-one letters a followed by e-acute: the
    digest [get_password_hash] stores for it is the digest of the
    seventy-one letters, so the password itself does not verify against its
    own digest, while the shorter password, which differs from it within
    the first 72 bytes, does. *)
Theorem straddling_password_not_verified (salt : list Z) (d : pystr) :
  get_password_hash salt straddling_password = Ok d →
  verify_password straddling_password d ≠ Ok true
  ∧ verify_password seventy_one_a d = Ok true.
Proof.
  rewrite get_password_hash_straddling. intros Hd. unfold verify_password. split.
  - intros Hv.
    destruct (pwd_context_verify_sound _ _ _ _ Hd Hv) as (b & b' & Hb & Hb' & Ht).
    rewrite utf8_encode_straddling in Hb. rewrite utf8_encode_seventy_one_a in Hb'.
    simplify_eq.
  - eapply pwd_context_verify_complete; [done|apply utf8_encode_seventy_one_a|].
    rewrite length_replicate. lia.
Qed.

(** The password of a registered user whose encoding straddles byte 72 does
    not get a token: the login never succeeds. *)
Lemma straddling_password_cannot_login (u : pystr) (r : gmap string pystr)
    (salt : list Z) (d : pystr) (now : Z) (db : store) :
  get_password_hash salt straddling_password = Ok d →
  db !! u = Some r → r !! "hashed_password" = Some d →
  ∀ token, (login_for_access_token (mkForm u straddling_password) now db).1 ≠ Ok token.
Proof.
  intros Hd Hu Hh token.
  assert (verify_password straddling_password d ≠ Ok true) as Hno.
  { rewrite get_password_hash_straddling in Hd. unfold verify_password. intros Hv.
    destruct (pwd_context_verify_sound _ _ _ _ Hd Hv) as (b & b' & Hb & Hb' & Ht).
    rewrite utf8_encode_straddling in Hb. rewrite utf8_encode_seventy_one_a in Hb'.
    simplify_eq. }
  unfold login_for_access_token, mbind, Db_bind, read_db, raise, lift, getitem; simpl.
  assert (contains u db = true) as -> by (apply contains_true; eauto).
  simpl. rewrite Hu, Hh.
  destruct (verify_password straddling_password d) as [[]|]; simpl; done.
Qed.

(** *** Passwords of at most 72 bytes *)

(** A password whose encoding has at most 72 bytes is hashed as it is. *)
Lemma get_password_hash_short (salt : list Z) (password : pystr) (b : list Z) :
  utf8_encode password = Ok b → length b ≤ 72 →
  get_password_hash salt password = pwd_context_hash salt password.
Proof.
  intros Hb Hlen. unfold get_password_hash. rewrite Hb.
  unfold mbind, result_bind. rewrite take_ge by lia.
  by rewrite (utf8_decode_encode password b Hb).
Qed.

(** X4: a password of at most 72 encoded bytes verifies against the digest
    [get_password_hash] makes of it, and a different password of at most 72
    encoded bytes does not. *)
Lemma hash_then_verify_short (salt : list Z) (password d : pystr) (b : list Z) :
  utf8_encode password = Ok b → length b ≤ 72 →
  get_password_hash salt password = Ok d →
  verify_password password d = Ok true
  ∧ ∀ other b', utf8_encode other = Ok b' → length b' ≤ 72 → other ≠ password →
      verify_password other d ≠ Ok true.
Proof.
  intros Hb Hlen. rewrite (get_password_hash_short _ _ _ Hb Hlen). intros Hd.
  unfold verify_password. split.
  - by apply (pwd_context_verify_complete salt password d b Hd Hb).
  - intros other b' Hb' Hlen' Hne Hv.
    destruct (pwd_context_verify_sound _ _ _ _ Hd Hv) as (c & c' & Hc & Hc' & Ht).
    rewrite Hb' in Hc. rewrite Hb in Hc'. simplify_eq.
    rewrite !take_ge in Ht by lia. subst.
    apply Hne. rewrite <- (utf8_decode_encode other c' Hb').
    by apply utf8_decode_encode.
Qed.

(** ** Beyond the claims: the password hasher *)

(** A character cut short by the end of the data decodes to nothing. *)
Lemma utf8_decode_ignore_cut_char (c : Z) (bs : list Z) (k : nat) :
  utf8_encode_char c = Ok bs → k < length bs →
  utf8_decode_ignore (take k bs) = [].
Proof.
  intros [[Hc ->]|[[Hc ->]|[(Hc & Hns & ->)|[Hc ->]]]]%utf8_encode_char_bytes Hk;
    simpl in Hk.
  - destruct k as [|k]; [done|lia].
  - destruct k as [|[|k]]; [done| |lia]. cbn [take].
    by rewrite utf8_decode_ignore_lead2 by (Z.div_mod_to_equations; lia).
  - destruct k as [|[|[|k]]]; [done| | |lia]; cbn [take].
    + by rewrite utf8_decode_ignore_lead3 by (Z.div_mod_to_equations; lia).
    + rewrite utf8_decode_ignore_lead3 by (Z.div_mod_to_equations; lia).
      rewrite is_continuation_byte by (Z.div_mod_to_equations; lia).
      cbn [negb orb].
      destruct (Z.ltb_spec (128 + (c `div` 64) `mod` 64) 160);
        [destruct (Z.eqb_spec (224 + c `div` 4096) 224)
        |destruct (Z.eqb_spec (224 + c `div` 4096) 237)]; try done.
      all: exfalso; Z.div_mod_to_equations; lia.
  - destruct k as [|[|[|[|k]]]]; [done| | | |lia]; cbn [take].
    + by rewrite utf8_decode_ignore_lead4 by (Z.div_mod_to_equations; lia).
    + rewrite utf8_decode_ignore_lead4 by (Z.div_mod_to_equations; lia).
      rewrite is_continuation_byte by (Z.div_mod_to_equations; lia).
      cbn [negb orb].
      destruct (Z.ltb_spec (128 + (c `div` 4096) `mod` 64) 144);
        [destruct (Z.eqb_spec (240 + c `div` 262144) 240)
        |destruct (Z.eqb_spec (240 + c `div` 262144) 244)]; try done.
      all: exfalso; Z.div_mod_to_equations; lia.
    + rewrite utf8_decode_ignore_lead4 by (Z.div_mod_to_equations; lia).
      rewrite !is_continuation_byte by (Z.div_mod_to_equations; lia).
      cbn [negb orb].
      destruct (Z.ltb_spec (128 + (c `div` 4096) `mod` 64) 144);
        [destruct (Z.eqb_spec (240 + c `div` 262144) 240)
        |destruct (Z.eqb_spec (240 + c `div` 262144) 244)]; try done.
      all: exfalso; Z.div_mod_to_equations; lia.
Qed.

Lemma utf8_encode_cons (c : Z) (s : pystr) (bs b : list Z) :
  utf8_encode_char c = Ok bs → utf8_encode s = Ok b →
  utf8_encode (c :: s) = Ok (bs ++ b).
Proof. intros Hc Hs. simpl. by rewrite Hc, Hs. Qed.

(** Cutting an encoded string after [k] bytes and decoding what is left
    gives the longest prefix of whole characters that fits in [k] bytes. *)
Lemma utf8_decode_ignore_take (s : pystr) (b : list Z) (k : nat) :
  utf8_encode s = Ok b →
  ∃ n b',
    utf8_decode_ignore (take k b) = take n s
    ∧ utf8_encode (take n s) = Ok b'
    ∧ length b' ≤ k
    ∧ (n = length s
       ∨ ∃ b'', utf8_encode (take (S n) s) = Ok b'' ∧ k < length b'').
Proof.
  revert b k. induction s as [|c s IH]; intros b k Hb.
  - injection Hb as <-. exists 0, []. rewrite take_nil.
    split; [done|]. split; [done|]. split; [simpl; lia|by left].
  - simpl in Hb. unfold mbind, result_bind in Hb.
    destruct (utf8_encode_char c) as [bs|] eqn:Hc; [|done].
    destruct (utf8_encode s) as [b0|] eqn:Hs; [|done].
    injection Hb as <-.
    destruct (decide (k < length bs)) as [Hlt|Hge].
    + exists 0, []. rewrite take_app_le by lia.
      rewrite (utf8_decode_ignore_cut_char c bs k Hc Hlt).
      split; [done|]. split; [done|]. split; [simpl; lia|]. right.
      exists (bs ++ []). split; [|rewrite length_app; simpl; lia].
      change (take 1 (c :: s)) with (c :: take 0 s). rewrite take_0.
      by apply utf8_encode_cons.
    + destruct (IH b0 (k - length bs) eq_refl) as (n & b' & Hdec & Henc & Hlen & Hmax).
      exists (S n), (bs ++ b'). rewrite take_app_ge by lia.
      rewrite (utf8_decode_encode_char c bs _ Hc), Hdec.
      change (take (S n) (c :: s)) with (c :: take n s).
      split; [done|]. split; [by apply utf8_encode_cons|].
      split; [rewrite length_app; lia|].
      destruct Hmax as [->|(b'' & Henc' & Hlen')]; [by left|right].
      exists (bs ++ b''). change (take (S (S n)) (c :: s)) with (c :: take (S n) s).
      split; [by apply utf8_encode_cons|].
      rewrite length_app. lia.
Qed.

(** X1: [get_password_hash] hashes the longest prefix of whole characters of
    the password whose encoding fits in 72 bytes: it hands the context
    [take n password] for an [n] such that these characters encode to at most
    72 bytes and either are the whole password or, with one character more,
    encode to more than 72 bytes. *)
Theorem get_password_hash_whole_characters (salt : list Z) (password : pystr)
    (b : list Z) :
  utf8_encode password = Ok b →
  ∃ n b',
    get_password_hash salt password = pwd_context_hash salt (take n password)
    ∧ utf8_encode (take n password) = Ok b'
    ∧ length b' ≤ 72
    ∧ (n = length password
       ∨ ∃ b'', utf8_encode (take (S n) password) = Ok b'' ∧ 72 < length b'').
Proof.
  intros Hb.
  destruct (utf8_decode_ignore_take password b 72 Hb) as (n & b' & Hdec & Hrest).
  exists n, b'. split; [|exact Hrest].
  unfold get_password_hash. rewrite Hb. unfold mbind, result_bind. by rewrite Hdec.
Qed.

(** X2: what lies beyond the first 72 encoded bytes does not reach the
    hasher: two passwords that agree on them are hashed alike. *)
Theorem get_password_hash_tail_ignored (salt : list Z) (p1 p2 : pystr)
    (b1 b2 : list Z) :
  utf8_encode p1 = Ok b1 → utf8_encode p2 = Ok b2 →
  take 72 b1 = take 72 b2 →
  get_password_hash salt p1 = get_password_hash salt p2.
Proof.
  intros H1 H2 Ht. unfold get_password_hash. rewrite H1, H2.
  unfold mbind, result_bind. by rewrite Ht.
Qed.

(** A string with a code point that UTF-8 cannot encode does not encode. *)
Lemma utf8_encode_unencodable (s : pystr) (c : Z) :
  c ∈ s → ((c < 0)%Z ∨ (1114111 < c)%Z ∨ (55296 ≤ c ≤ 57343)%Z) →
  utf8_encode s = Raise UnicodeEncodeError.
Proof.
  intros Hin Hc. induction s as [|c' s IH]; [by apply not_elem_of_nil in Hin|].
  simpl. unfold mbind, result_bind.
  destruct (utf8_encode_char c') as [bs|e] eqn:Hc'.
  - apply elem_of_cons in Hin as [->|Hin].
    + exfalso. unfold utf8_encode_char, is_surrogate in Hc'.
      destruct (Z.ltb_spec c' 0); [done|].
      destruct (Z.ltb_spec 1114111 c'); [done|].
      destruct (Z.leb_spec 55296 c'); destruct (Z.leb_spec c' 57343);
        simpl in Hc'; try done; lia.
    + by rewrite (IH Hin).
  - by apply utf8_encode_char_raises in Hc' as ->.
Qed.

(** X3: a password holding a lone surrogate is refused with
    [UnicodeEncodeError] before the context is asked, and a [signup] with it
    that passed both uniqueness tests raises that error and stores nothing. *)
Theorem surrogate_password_not_hashed (salt : list Z) (password : pystr) (c : Z) :
  c ∈ password → (55296 ≤ c ≤ 57343)%Z →
  get_password_hash salt password = Raise UnicodeEncodeError
  ∧ ∀ (user : UserSignup) (db : store),
      signup_password user = password →
      db !! signup_username user = None → ¬ email_taken (signup_email user) db →
      signup user salt db = (Raise UnicodeEncodeError, db).
Proof.
  intros Hin Hc.
  assert (get_password_hash salt password = Raise UnicodeEncodeError) as Hh.
  { unfold get_password_hash.
    by rewrite (utf8_encode_unencodable password c Hin) by auto. }
  split; [exact Hh|]. intros user db Hp Hu He.
  destruct (signup_cases user salt db)
    as [[Hu' _]|[(_ & He' & _)|(_ & _ & [(e & Hh' & ->)|(h & Hh' & _)])]].
  - rewrite Hu in Hu'. by destruct Hu'.
  - done.
  - rewrite Hp, Hh in Hh'. by simplify_eq.
  - rewrite Hp, Hh in Hh'. done.
Qed.

(** ** Beyond the claims: the three operations *)

(** Outcome of a login for a registered user, by the answer of the
    context. *)
Lemma login_registered (u p : pystr) (now : Z) (db : store)
    (r : gmap string pystr) (h : pystr) :
  db !! u = Some r → r !! "hashed_password" = Some h →
  login_for_access_token (mkForm u p) now db =
  match verify_password p h with
  | Raise e => (Raise e, db)
  | Ok false => (Raise (EHTTP incorrect_login), db)
  | Ok true =>
      match create_access_token {[ "sub" := VStr u ]}
              (Some (timedelta_minutes ACCESS_TOKEN_EXPIRE_MINUTES)) now with
      | Ok token =>
          (Ok {[ "access_token" := token; "token_type" := py "bearer" ]}, db)
      | Raise e => (Raise e, db)
      end
  end.
Proof.
  intros Hu Hh.
  unfold login_for_access_token, mbind, mret, Db_bind, Db_ret, read_db, raise, lift,
    getitem.
  cbn [form_username form_password].
  assert (contains u db = true) as -> by (apply contains_true; eauto).
  cbn [negb]. rewrite Hu, Hh.
  destruct (verify_password p h) as [[]|]; [|done|done].
  cbn [negb]. by destruct (create_access_token _ _ now).
Qed.

(** Outcome of [get_current_user] once the codec has answered. *)
Lemma get_current_user_decoded (token : pystr) (now : Z) (db : store)
    (payload : gmap string json) (u : pystr) :
  jwt_decode token SECRET_KEY now = Ok payload →
  payload !! "sub" = Some (JStr u) →
  get_current_user token now db =
  match db !! u with
  | Some r => (Ok r, db)
  | None => (Raise (EHTTP credentials_exception), db)
  end.
Proof.
  intros Hd Hs.
  unfold get_current_user, mbind, Db_bind, read_db, raise, lift, except_JWTError,
    getitem.
  unfold mbind, result_bind. rewrite Hd, Hs. cbn [TokenData_init token_username].
  unfold contains. destruct (db !! u) as [r|] eqn:Hu.
  - rewrite bool_decide_eq_true_2 by eauto. done.
  - rewrite bool_decide_eq_false_2 by (by intros []). done.
Qed.




(** X5: what a successful [signup] does to the store: the username and the
    email were free, the new record with the digest of the password is filed
    under the username, every other record is as before, and the store has
    one record more. *)
Theorem signup_success_effect (user : UserSignup) (salt : list Z)
    (db db' : store) (u : User) :
  signup user salt db = (Ok u, db') →
  db !! signup_username user = None
  ∧ ¬ email_taken (signup_email user) db
  ∧ (∃ h, get_password_hash salt (signup_password user) = Ok h
          ∧ db' !! signup_username user
            = Some {[ "username" := signup_username user;
                      "email" := signup_email user;
                      "hashed_password" := h ]})
  ∧ (∀ k, k ≠ signup_username user → db' !! k = db !! k)
  ∧ size db' = S (size db).
Proof.
  intros Hs.
  destruct (signup_cases user salt db)
    as [[_ H]|[(_ & _ & H)|(Hu & He & [(e & _ & H)|(h & Hh & H)])]];
    rewrite H in Hs; try done.
  injection Hs as _ <-.
  split; [done|]. split; [done|]. split; [|split].
  - exists h. split; [done|]. by rewrite lookup_insert_eq.
  - intros k Hk. by rewrite lookup_insert_ne.
  - by apply map_size_insert_None.
Qed.

(** X6: after a successful [signup], a second [signup] under the same
    username is refused for the username, and one under a free username with
    the same email is refused for the email; neither changes the store. *)
Theorem signup_then_conflict (user user2 : UserSignup) (salt salt2 : list Z)
    (db db' : store) (u : User) :
  signup user salt db = (Ok u, db') →
  (signup_username user2 = signup_username user →
     signup user2 salt2 db' = (Raise (EHTTP username_registered), db'))
  ∧ (db' !! signup_username user2 = None →
     signup_email user2 = signup_email user →
     signup user2 salt2 db' = (Raise (EHTTP email_registered), db')).
Proof.
  intros Hs.
  assert (∃ r, db' !! signup_username user = Some r
               ∧ r !! "email" = Some (signup_email user)) as (r & Hr & Hemail).
  { destruct (signup_cases user salt db)
      as [[_ H]|[(_ & _ & H)|(Hu & He & [(e & _ & H)|(h & Hh & H)])]];
      rewrite H in Hs; try done.
    injection Hs as _ <-. eexists. split; [by rewrite lookup_insert_eq|].
    rewrite lookup_insert_ne by done. by rewrite lookup_insert_eq. }
  split.
  - intros Hsame.
    destruct (signup_cases user2 salt2 db')
      as [[_ H]|[(Hu & _)|(Hu & _)]]; [done|..];
      rewrite Hsame, Hr in Hu; done.
  - intros Hfree Hsame.
    destruct (signup_cases user2 salt2 db')
      as [[Hu _]|[(_ & _ & H)|(_ & He & _)]]; [|done|].
    + rewrite Hfree in Hu. by destruct Hu.
    + exfalso. apply He. exists (signup_username user), r. by rewrite Hsame.
Qed.

(** X7: neither [login_for_access_token] nor [get_current_user] ever writes
    to the store, whatever they are given and however they end. *)
Theorem lookups_keep_store (form_data : OAuth2PasswordRequestForm) (token : pystr)
    (now : Z) (db : store) :
  (login_for_access_token form_data now db).2 = db
  ∧ (get_current_user token now db).2 = db.
Proof. split; [apply login_keeps_store|apply get_current_user_keeps_store]. Qed.



(** X10: when [get_current_user] answers with a record, the token decoded
    under the secret at that clock reading, its subject is a string, and the
    record is the one the store holds for that subject at the time of the
    call. *)
Theorem get_current_user_live_record (token : pystr) (now : Z) (db db' : store)
    (r : gmap string pystr) :
  get_current_user token now db = (Ok r, db') →
  db' = db
  ∧ ∃ payload u,
      jwt_decode token SECRET_KEY now = Ok payload
      ∧ payload !! "sub" = Some (JStr u)
      ∧ db !! u = Some r.
Proof.
  destruct (jwt_decode token SECRET_KEY now) as [payload|x] eqn:Hd.
  - destruct (payload !! "sub") as [[u|n|raw]|] eqn:Hs.
    + rewrite (get_current_user_decoded token now db payload u Hd Hs).
      destruct (db !! u) as [r'|] eqn:Hu; [|done].
      intros [= -> <-]. split; [done|]. by exists payload, u.
    + unfold get_current_user, mbind, Db_bind, read_db, raise, lift, except_JWTError.
      unfold mbind, result_bind. rewrite Hd, Hs. done.
    + unfold get_current_user, mbind, Db_bind, read_db, raise, lift, except_JWTError.
      unfold mbind, result_bind. rewrite Hd, Hs. done.
    + unfold get_current_user, mbind, Db_bind, read_db, raise, lift, except_JWTError.
      unfold mbind, result_bind. rewrite Hd, Hs. done.
  - unfold get_current_user, mbind, Db_bind, read_db, raise, lift, except_JWTError.
    unfold mbind, result_bind. rewrite Hd. by destruct x.
Qed.

(** X11: the only [HTTPException] that leaves [get_current_user] is
    [credentials_exception], status 401 with the bearer challenge header. *)
Theorem get_current_user_single_http_error (token : pystr) (now : Z) (db : store)
    (e : HTTPException) :
  (get_current_user token now db).1 = Raise (EHTTP e) →
  e = credentials_exception
  ∧ status_code e = 401%Z
  ∧ headers e = Some [("WWW-Authenticate", "Bearer")].
Proof.
  intros He. assert (e = credentials_exception) as ->; [|done].
  destruct (jwt_decode token SECRET_KEY now) as [payload|x] eqn:Hd.
  - destruct (payload !! "sub") as [[u|n|raw]|] eqn:Hs.
    + rewrite (get_current_user_decoded token now db payload u Hd Hs) in He.
      destruct (db !! u); simpl in He; congruence.
    + revert He.
      unfold get_current_user, mbind, Db_bind, read_db, raise, lift, except_JWTError.
      unfold mbind, result_bind. rewrite Hd, Hs. done.
    + revert He.
      unfold get_current_user, mbind, Db_bind, read_db, raise, lift, except_JWTError.
      unfold mbind, result_bind. rewrite Hd, Hs. done.
    + revert He.
      unfold get_current_user, mbind, Db_bind, read_db, raise, lift, except_JWTError.
      unfold mbind, result_bind. rewrite Hd, Hs. simpl. congruence.
  - revert He.
    unfold get_current_user, mbind, Db_bind, read_db, raise, lift, except_JWTError.
    unfold mbind, result_bind. rewrite Hd.
    destruct x; simpl; try congruence.
    by apply jwt_decode_not_http in Hd.
Qed.

(** X12: every record of a store reached from the empty one is the
    three-field dictionary filed under its own username, and its digest is
    what [get_password_hash] returned for some password. *)
Theorem reachable_records_hashed (db : store) :
  reachable db →
  ∀ u r, db !! u = Some r →
    ∃ e h salt password,
      r = {[ "username" := u; "email" := e; "hashed_password" := h ]}
      ∧ get_password_hash salt password = Ok h.
Proof.
  induction 1 as [|db req _ IH]; intros u r.
  - by rewrite lookup_empty.
  - destruct req as [user salt|form_data now|token now]; simpl.
    + destruct (signup_cases user salt db)
        as [[_ ->]|[(_ & _ & ->)|(_ & _ & [(e' & _ & ->)|(h & Hh & ->)])]];
        simpl; try apply IH.
      rewrite lookup_insert. case_decide as Hk; [|apply IH].
      intros [= <-]. subst u. by exists (signup_email user), h, salt, (signup_password user).
    + rewrite login_keeps_store. apply IH.
    + rewrite get_current_user_keeps_store. apply IH.
Qed.


(** X14: when the cut at 72 bytes falls inside a character, so that the
    characters left encode to fewer than 72 bytes, the password does not
    verify against the digest [get_password_hash] made of it, and its owner
    gets no token from [login_for_access_token]. *)
Theorem cut_character_never_verifies (salt : list Z) (password d : pystr)
    (b b' : list Z) :
  utf8_encode password = Ok b →
  utf8_encode (utf8_decode_ignore (take 72 b)) = Ok b' →
  length b' < 72 < length b →
  get_password_hash salt password = Ok d →
  verify_password password d ≠ Ok true
  ∧ ∀ (db : store) (u : pystr) (r token : gmap string pystr) (now : Z),
      db !! u = Some r → r !! "hashed_password" = Some d →
      (login_for_access_token (mkForm u password) now db).1 ≠ Ok token.
Proof.
  intros Hb Hb' Hlen Hd.
  assert (verify_password password d ≠ Ok true) as Hno.
  { unfold get_password_hash in Hd. rewrite Hb in Hd.
    unfold mbind, result_bind in Hd. unfold verify_password. intros Hv.
    destruct (pwd_context_verify_sound _ _ _ _ Hd Hv) as (c & c' & Hc & Hc' & Ht).
    rewrite Hb in Hc. rewrite Hb' in Hc'. simplify_eq.
    apply (f_equal length) in Ht. rewrite !length_take in Ht. lia. }
  split; [exact Hno|]. intros db u r token now Hu Hh.
  rewrite (login_registered u password now db r d Hu Hh).
  destruct (verify_password password d) as [[]|]; simpl; done.
Qed.

(** X15: [get_current_user] does not ask for an expiry.  A token that
    verifies under the secret and carries only a string subject resolves to
    the record of that subject at every clock reading. *)
Theorem token_without_expiry_never_expires (token u : pystr) (db : store)
    (r : gmap string pystr) (now : Z) :
  jws_verify token SECRET_KEY = Some {[ "sub" := JStr u ]} →
  db !! u = Some r →
  get_current_user token now db = (Ok r, db).
Proof.
  intros Hv Hu.
  rewrite (get_current_user_decoded token now db {[ "sub" := JStr u ]} u).
  - by rewrite Hu.
  - unfold jwt_decode. rewrite Hv.
    unfold validate_iat, validate_nbf, validate_exp, validate_absent, validate_str.
    by repeat (first [rewrite lookup_singleton_eq
                     | rewrite lookup_singleton_ne by done]).
  - apply lookup_singleton_eq.
Qed.

End Properties.

(** * The ideal libraries meet the contracts *)

Lemma bits_pos_bits (p : positive) : Ideal.bits_pos (Ideal.pos_bits p) = Some p.
Proof. induction p as [p IH|p IH|]; simpl; [by rewrite IH..|done]. Qed.

Lemma ideal_parse_digest (salt key l : list Z) :
  l = Ideal.pos_bits (encode (salt, key)) →
  Ideal.parse (py "$2b$12$" ++ l) = Some (salt, key)
  ∧ Ideal.identify (py "$2b$12$" ++ l) = true.
Proof.
  intros ->. split; [|reflexivity].
  unfold Ideal.parse.
  change (startswith (py "$2b$12$") (py "$2b$12$" ++ Ideal.pos_bits (encode (salt, key))))
    with true.
  change (drop 7 (py "$2b$12$" ++ Ideal.pos_bits (encode (salt, key))))
    with (Ideal.pos_bits (encode (salt, key))).
  cbv iota. rewrite bits_pos_bits. simpl. apply decode_encode.
Qed.

Lemma ideal_hash_inv (salt : list Z) (secret d : pystr) :
  Ideal.hash salt secret = Ok d →
  ∃ b, utf8_encode secret = Ok b ∧ Ideal.has_nul b = false
       ∧ d = py "$2b$12$" ++ Ideal.pos_bits (encode (salt, take 72 b)).
Proof.
  unfold Ideal.hash, mbind, result_bind.
  destruct (utf8_encode secret) as [b|]; [|done].
  destruct (Ideal.has_nul b) eqn:Hn; [done|].
  intros [= <-]. by exists b.
Qed.

Lemma ideal_verify_digest (salt key : list Z) (secret : pystr) :
  Ideal.verify secret (py "$2b$12$" ++ Ideal.pos_bits (encode (salt, key)))
  = b ← utf8_encode secret;
    if Ideal.has_nul b then Raise PasswordValueError
    else Ok (bool_decide (take 72 b = key)).
Proof.
  unfold Ideal.verify.
  destruct (ideal_parse_digest salt key _ eq_refl) as [-> ->]. done.
Qed.

Lemma ideal_verify_unknown (secret d : pystr) :
  Ideal.identify d = false → Ideal.verify secret d = Raise UnknownHashError.
Proof. unfold Ideal.verify. by intros ->. Qed.

Lemma ideal_verify_sound (salt : list Z) (secret secret' d : pystr) :
  Ideal.hash salt secret' = Ok d →
  Ideal.verify secret d = Ok true →
  ∃ b b', utf8_encode secret = Ok b ∧ utf8_encode secret' = Ok b'
          ∧ take 72 b = take 72 b'.
Proof.
  intros (b' & Hb' & _ & ->)%ideal_hash_inv.
  rewrite ideal_verify_digest. unfold mbind, result_bind.
  destruct (utf8_encode secret) as [b|]; [|done].
  destruct (Ideal.has_nul b); [done|].
  intros [= Heq%bool_decide_eq_true]. by exists b, b'.
Qed.

Lemma ideal_verify_complete (salt : list Z) (secret d : pystr) (b : list Z) :
  Ideal.hash salt secret = Ok d →
  utf8_encode secret = Ok b → length b ≤ 72 →
  Ideal.verify secret d = Ok true.
Proof.
  intros (b' & Hb' & Hn & ->)%ideal_hash_inv Hb _.
  rewrite ideal_verify_digest. unfold mbind, result_bind.
  rewrite Hb'. rewrite Hn. by rewrite bool_decide_eq_true_2.
Qed.

Lemma ideal_verify_nul (salt : list Z) (secret secret' d : pystr) (b : list Z) :
  Ideal.hash salt secret' = Ok d →
  utf8_encode secret = Ok b → 0%Z ∈ b →
  Ideal.verify secret d = Raise PasswordValueError.
Proof.
  intros (b' & _ & _ & ->)%ideal_hash_inv Hb Hnul.
  rewrite ideal_verify_digest, Hb. unfold mbind, result_bind, Ideal.has_nul.
  by rewrite bool_decide_eq_true_2.
Qed.

Lemma ideal_hash_not_http (salt : list Z) (secret : pystr) (e : HTTPException) :
  Ideal.hash salt secret ≠ Raise (EHTTP e).
Proof.
  unfold Ideal.hash, mbind, result_bind.
  destruct (utf8_encode secret) as [b|x] eqn:Hb.
  - by destruct (Ideal.has_nul b).
  - apply utf8_encode_raises in Hb as ->. done.
Qed.

Lemma ideal_unsign_sign (claims : gmap string json) (key : pystr) :
  Ideal.unsign (Ideal.sign claims key) key = Some claims.
Proof.
  unfold Ideal.unsign, Ideal.sign. rewrite bits_pos_bits. simpl.
  rewrite decode_encode. simpl. by rewrite bool_decide_eq_true_2.
Qed.

Lemma ideal_to_int_JInt (n : Z) : Ideal.to_int (JInt n) = Ok n.
Proof. reflexivity. Qed.

Lemma ideal_to_int_raises (v : json) (e : exn) :
  Ideal.to_int v = Raise e → e = ValueError ∨ e = TypeError ∨ e = OverflowError.
Proof. destruct v; simpl; intros [= <-]; auto. Qed.

(** * Concrete runs with the ideal libraries *)

(** The straddling password under the ideal libraries: hashed, it is refused
    against its own digest, and the seventy-one letters are accepted. *)
Lemma straddling_password_not_verified_run :
  get_password_hash (env := Ideal.env) [7]%Z straddling_password = Ok straddling_digest
  ∧ verify_password (env := Ideal.env) straddling_password straddling_digest ≠ Ok true
  ∧ verify_password (env := Ideal.env) seventy_one_a straddling_digest = Ok true.
Proof.
  assert (get_password_hash (env := Ideal.env) [7]%Z straddling_password
          = Ok straddling_digest) as Hd by (vm_compute; reflexivity).
  split; [exact Hd|].
  exact (straddling_password_not_verified (env := Ideal.env)
           ideal_verify_sound ideal_verify_complete [7]%Z straddling_digest Hd).
Defined.


(** In the store that holds alice, a login as bob, who is not registered, and
    a login as alice with a wrong password end alike. *)
Lemma login_failures_identical_run :
  db_alice !! py "bob" = None
  ∧ db_alice !! py "alice" = Some alice_record
  ∧ alice_record !! "hashed_password" = Some alice_digest
  ∧ verify_password (env := Ideal.env) (py "wrong horse") alice_digest = Ok false
  ∧ login_for_access_token (env := Ideal.env)
      (mkForm (py "bob") (py "battery staple")) sample_now db_alice
    = (Raise (EHTTP incorrect_login), db_alice)
  ∧ login_for_access_token (env := Ideal.env)
      (mkForm (py "alice") (py "wrong horse")) sample_now db_alice
    = (Raise (EHTTP incorrect_login), db_alice).
Proof.
  assert (db_alice !! py "bob" = None) as H1 by (vm_compute; reflexivity).
  assert (db_alice !! py "alice" = Some alice_record) as H2 by (vm_compute; reflexivity).
  assert (alice_record !! "hashed_password" = Some alice_digest) as H3
    by (vm_compute; reflexivity).
  assert (verify_password (env := Ideal.env) (py "wrong horse") alice_digest = Ok false)
    as H4 by (vm_compute; reflexivity).
  split; [exact H1|]. split; [exact H2|]. split; [exact H3|]. split; [exact H4|].
  exact (login_failures_identical (env := Ideal.env) db_alice
           (py "bob") (py "battery staple") (py "alice") (py "wrong horse")
           sample_now sample_now alice_record alice_digest H1 H2 H3 H4).
Defined.

(** With alice registered and bob not, the wrong password [nul_password]
    is answered with the 401 for bob and with [PasswordValueError] for
    alice. *)
Lemma login_failure_reveals_registration_run :
  db_alice !! py "bob" = None
  ∧ db_alice !! py "alice" = Some alice_record
  ∧ alice_record !! "hashed_password" = Some alice_digest
  ∧ get_password_hash (env := Ideal.env) [1; 2; 3]%Z (py "correct horse")
    = Ok alice_digest
  ∧ nul_password ≠ py "correct horse"
  ∧ utf8_encode nul_password = Ok [97; 0; 98]%Z
  ∧ 0%Z ∈ [97; 0; 98]%Z
  ∧ login_for_access_token (env := Ideal.env)
      (mkForm (py "bob") nul_password) sample_now db_alice
    = (Raise (EHTTP incorrect_login), db_alice)
  ∧ login_for_access_token (env := Ideal.env)
      (mkForm (py "alice") nul_password) sample_now db_alice
    = (Raise PasswordValueError, db_alice).
Proof.
  assert (db_alice !! py "bob" = None) as H1 by (vm_compute; reflexivity).
  assert (db_alice !! py "alice" = Some alice_record) as H2 by (vm_compute; reflexivity).
  assert (alice_record !! "hashed_password" = Some alice_digest) as H3
    by (vm_compute; reflexivity).
  assert (get_password_hash (env := Ideal.env) [1; 2; 3]%Z (py "correct horse")
          = Ok alice_digest) as H4 by (vm_compute; reflexivity).
  assert (nul_password ≠ py "correct horse") as H5 by (vm_compute; discriminate).
  assert (utf8_encode nul_password = Ok [97; 0; 98]%Z) as H6
    by (vm_compute; reflexivity).
  assert (0%Z ∈ [97; 0; 98]%Z) as H7
    by (apply (bool_decide_unpack _); vm_compute; exact I).
  split; [exact H1|]. split; [exact H2|]. split; [exact H3|]. split; [exact H4|].
  split; [exact H5|]. split; [exact H6|]. split; [exact H7|].
  exact (login_failure_reveals_registration (env := Ideal.env) ideal_verify_nul
           db_alice (py "bob") (py "alice") nul_password sample_now sample_now
           alice_record alice_digest [1; 2; 3]%Z (py "correct horse")
           [97; 0; 98]%Z H1 H2 H3 H4 H5 H6 H7).
Defined.

(** The expired token for an unregistered subject whose [iat] is [null]
    leaves as [TypeError]. *)
Lemma expired_token_unconvertible_iat_run :
  Ideal.unsign null_iat_token (py "placeholder_secret_key") = Some null_iat_claims
  ∧ null_iat_claims !! "exp" = Some (JInt 1699999999)
  ∧ (1699999999 < timegm sample_now)%Z
  ∧ null_iat_claims !! "iat" = Some (JOther (py "null"))
  ∧ Ideal.to_int (JOther (py "null")) = Raise TypeError
  ∧ db_alice !! py "mallory" = None
  ∧ get_current_user (env := Ideal.env) null_iat_token sample_now db_alice
    = (Raise TypeError, db_alice).
Proof.
  assert (Ideal.unsign null_iat_token (py "placeholder_secret_key")
          = Some null_iat_claims) as Hv by apply ideal_unsign_sign.
  assert (null_iat_claims !! "exp" = Some (JInt 1699999999)) as He
    by (vm_compute; reflexivity).
  assert (1699999999 < timegm sample_now)%Z as Hlt by (vm_compute; reflexivity).
  assert (null_iat_claims !! "iat" = Some (JOther (py "null"))) as Hi
    by (vm_compute; reflexivity).
  assert (Ideal.to_int (JOther (py "null")) = Raise TypeError) as Hint
    by reflexivity.
  assert (db_alice !! py "mallory" = None) as Hnone by (vm_compute; reflexivity).
  split; [exact Hv|]. split; [exact He|]. split; [exact Hlt|]. split; [exact Hi|].
  split; [exact Hint|]. split; [exact Hnone|].
  exact (expired_token_unconvertible_iat (env := Ideal.env) null_iat_token
           sample_now db_alice null_iat_claims 1699999999
           (JOther (py "null")) Hv He Hlt Hi Hint).
Defined.

(** Four refused tokens in the store that holds alice: one that does not
    parse, one signed with another key, one that has expired, and one whose
    subject is not registered. *)
Lemma rejection_is_opaque_run :
  get_current_user (env := Ideal.env) (py "garbage") sample_now db_alice
    = (Raise (EHTTP credentials_exception), db_alice)
  ∧ get_current_user (env := Ideal.env) forged_token sample_now db_alice
    = (Raise (EHTTP credentials_exception), db_alice)
  ∧ get_current_user (env := Ideal.env) expired_token sample_now db_alice
    = (Raise (EHTTP credentials_exception), db_alice)
  ∧ get_current_user (env := Ideal.env) stranger_token sample_now db_alice
    = (Raise (EHTTP credentials_exception), db_alice).
Proof.
  assert (jwt_decode (env := Ideal.env) (py "garbage") (@SECRET_KEY Ideal.env) sample_now
          = Raise (EJWT JWTError)) as Hgarbage by (vm_compute; reflexivity).
  assert (jwt_decode (env := Ideal.env) forged_token (@SECRET_KEY Ideal.env) sample_now
          = Raise (EJWT JWTError)) as Hforged by (vm_compute; reflexivity).
  assert (jwt_decode (env := Ideal.env) expired_token (@SECRET_KEY Ideal.env) sample_now
          = Raise (EJWT ExpiredSignatureError)) as Hexpired by (vm_compute; reflexivity).
  assert (jwt_decode (env := Ideal.env) stranger_token (@SECRET_KEY Ideal.env) sample_now
          = Ok {[ "exp" := JInt 1700003600; "sub" := JStr (py "mallory") ]})
    as Hstranger by (vm_compute; reflexivity).
  assert (({[ "exp" := JInt 1700003600; "sub" := JStr (py "mallory") ]}
           : gmap string json) !! "sub" = Some (JStr (py "mallory"))) as Hsub
    by (vm_compute; reflexivity).
  assert (db_alice !! py "mallory" = None) as Hnone by (vm_compute; reflexivity).
  split; [|split; [|split]].
  - exact (rejection_is_opaque (env := Ideal.env) _ _ _
             (rejected_by_codec _ _ _ JWTError Hgarbage)).
  - exact (rejection_is_opaque (env := Ideal.env) _ _ _
             (rejected_by_codec _ _ _ JWTError Hforged)).
  - exact (rejection_is_opaque (env := Ideal.env) _ _ _
             (rejected_by_codec _ _ _ ExpiredSignatureError Hexpired)).
  - exact (rejection_is_opaque (env := Ideal.env) _ _ _
             (rejected_unknown_subject _ _ _ _ (py "mallory") Hstranger Hsub Hnone)).
Defined.

(** The three parts of the expiry theorem at work: [fresh_token] is accepted
    at [sample_now], before its expiry second; [expired_token], refused at
    [sample_now], is refused a thousand seconds later; a token issued at
    [sample_now] with a lifetime of minus one second is refused at once. *)
Lemma expired_token_stays_refused_run :
  (timegm sample_now ≤ 1700003600)%Z
  ∧ jwt_decode (env := Ideal.env) expired_token (@SECRET_KEY Ideal.env)
      (sample_now + 1000000000)
    = Raise (EJWT ExpiredSignatureError)
  ∧ ∃ token,
      create_access_token (env := Ideal.env) {[ "sub" := VStr (py "alice") ]}
        (Some (-1000000)%Z) sample_now = Ok token
      ∧ jwt_decode (env := Ideal.env) token (@SECRET_KEY Ideal.env) sample_now
        = Raise (EJWT ExpiredSignatureError).
Proof.
  destruct (expired_token_stays_refused (env := Ideal.env)
              ideal_unsign_sign ideal_to_int_JInt ideal_to_int_raises)
    as (Haccepted & Hlater & Hnegative).
  assert (jwt_decode (env := Ideal.env) fresh_token (@SECRET_KEY Ideal.env) sample_now
          = Ok {[ "exp" := JInt 1700003600; "sub" := JStr (py "alice") ]}) as Hfresh
    by (vm_compute; reflexivity).
  assert (({[ "exp" := JInt 1700003600; "sub" := JStr (py "alice") ]}
           : gmap string json) !! "exp" = Some (JInt 1700003600)) as Hexp
    by (vm_compute; reflexivity).
  assert (jwt_decode (env := Ideal.env) expired_token (@SECRET_KEY Ideal.env) sample_now
          = Raise (EJWT ExpiredSignatureError)) as Hexpired by (vm_compute; reflexivity).
  split; [|split].
  - exact (Haccepted fresh_token sample_now _ (JInt 1700003600) 1700003600%Z
             Hfresh Hexp eq_refl).
  - apply (Hlater expired_token sample_now); [lia|exact Hexpired].
  - apply (Hnegative (py "alice") (-1000000)%Z sample_now sample_now); [lia|lia|].
    unfold datetime_min, datetime_max, sample_now. lia.
Defined.

(** In the store that holds alice: a second alice is refused for her
    username, with a new email and with alice's email alike; bob with alice's
    email is refused for the email. *)
Lemma signup_username_before_email_run :
  (signup (env := Ideal.env) alice_again [9]%Z db_alice).1
    = Raise (EHTTP username_registered)
  ∧ (signup (env := Ideal.env) alice_twice [9]%Z db_alice).1
    = Raise (EHTTP username_registered)
  ∧ (signup (env := Ideal.env) bob_same_email [9]%Z db_alice).1
    = Raise (EHTTP email_registered).
Proof.
  assert (db_alice !! py "alice" = Some alice_record) as Halice
    by (vm_compute; reflexivity).
  assert (alice_record !! "email" = Some (py "a@x.com")) as Hemail
    by (vm_compute; reflexivity).
  assert (db_alice !! py "bob" = None) as Hbob by (vm_compute; reflexivity).
  split; [|split].
  - apply (proj1 (signup_username_before_email (env := Ideal.env) ideal_hash_not_http
                    alice_again [9]%Z db_alice)).
    exists alice_record. exact Halice.
  - apply (proj1 (signup_username_before_email (env := Ideal.env) ideal_hash_not_http
                    alice_twice [9]%Z db_alice)).
    exists alice_record. exact Halice.
  - apply (proj2 (signup_username_before_email (env := Ideal.env) ideal_hash_not_http
                    bob_same_email [9]%Z db_alice)).
    split; [exact Hbob|]. exists (py "alice"), alice_record. split; [exact Halice|exact Hemail].
Defined.

(** The uniqueness theorem on the store of [db_history]. *)
Lemma reachable_unique_principals_run :
  reachable (env := Ideal.env) db_history
  ∧ unique_principals db_history
  ∧ NoDup ((λ r : gmap string pystr, r !! "username") <$> values db_history)
  ∧ NoDup ((λ r : gmap string pystr, r !! "email") <$> values db_history).
Proof.
  assert (reachable (env := Ideal.env) db_history) as Hr.
  { unfold db_history. do 4 apply reachable_step. apply reachable_empty. }
  split; [exact Hr|].
  exact (reachable_unique_principals (env := Ideal.env) db_history Hr).
Defined.

(** A digest that is no bcrypt digest makes [verify_password] raise. *)
Lemma verify_password_unknown_digest_run :
  Ideal.identify (py "correct horse") = false
  ∧ verify_password (env := Ideal.env) (py "correct horse") (py "correct horse")
    = Raise UnknownHashError.
Proof.
  assert (Ideal.identify (py "correct horse") = false) as Hid
    by (vm_compute; reflexivity).
  split; [exact Hid|].
  exact (proj1 (verify_password_unknown_digest (env := Ideal.env) ideal_verify_unknown
                  (py "correct horse") (py "correct horse") Hid)).
Defined.

(** The answer to alice's registration. *)
Lemma signup_returns_public_view_run :
  signup (env := Ideal.env) alice [1; 2; 3]%Z ∅
    = (Ok (mkUser (py "alice") (py "a@x.com")), db_alice)
  ∧ model_dump (mkUser (py "alice") (py "a@x.com"))
    = {[ "username" := signup_username alice; "email" := signup_email alice ]}
  ∧ dom (model_dump (mkUser (py "alice") (py "a@x.com")))
    = ({[ "username"; "email" ]} : gset string)
  ∧ model_dump (mkUser (py "alice") (py "a@x.com")) !! "hashed_password" = None
  ∧ model_dump (mkUser (py "alice") (py "a@x.com")) !! "password" = None.
Proof.
  assert (signup (env := Ideal.env) alice [1; 2; 3]%Z ∅
          = (Ok (mkUser (py "alice") (py "a@x.com")), db_alice)) as Hs
    by (vm_compute; reflexivity).
  split; [exact Hs|].
  exact (signup_returns_public_view (env := Ideal.env) alice [1; 2; 3]%Z ∅ db_alice
           (mkUser (py "alice") (py "a@x.com")) Hs).
Defined.

(** A refused registration leaves the store that holds alice as it was. *)
Lemma signup_failure_keeps_store_run :
  (signup (env := Ideal.env) bob_same_email [9]%Z db_alice).1
    = Raise (EHTTP email_registered)
  ∧ (signup (env := Ideal.env) bob_same_email [9]%Z db_alice).2 = db_alice.
Proof.
  assert ((signup (env := Ideal.env) bob_same_email [9]%Z db_alice).1
          = Raise (EHTTP email_registered)) as Hs by (vm_compute; reflexivity).
  split; [exact Hs|].
  exact (signup_failure_keeps_store (env := Ideal.env) bob_same_email [9]%Z db_alice
           _ Hs).
Defined.

(** * Where the specification and the code part *)

(** C5 as stated fails.  A token issued at [sample_now] with a lifetime of
    zero gets the default sixty minutes and is accepted at once; a token
    issued with a lifetime of minus one microsecond carries the expiry second
    1700000000, which [sample_now] has passed by half a second, and is
    accepted at once as well. *)
Lemma nonpositive_lifetime_accepted :
  (create_access_token (env := Ideal.env) {[ "sub" := VStr (py "alice") ]}
     (Some 0%Z) sample_now = Ok fresh_token
   ∧ jwt_decode (env := Ideal.env) fresh_token (@SECRET_KEY Ideal.env) sample_now
     = Ok {[ "exp" := JInt 1700003600; "sub" := JStr (py "alice") ]})
  ∧ (create_access_token (env := Ideal.env) {[ "sub" := VStr (py "alice") ]}
       (Some (-1)%Z) sample_now = Ok expiring_token
     ∧ jwt_decode (env := Ideal.env) expiring_token (@SECRET_KEY Ideal.env) sample_now
       = Ok {[ "exp" := JInt 1700000000; "sub" := JStr (py "alice") ]}
     ∧ (1700000000 * 1000000 < sample_now)%Z).
Proof.
  split; [split|split; [|split]].
  - vm_compute. reflexivity.
  - vm_compute. reflexivity.
  - vm_compute. reflexivity.
  - vm_compute. reflexivity.
  - unfold sample_now. lia.
Qed.

(** C8 as stated fails.  Checked against a stored value that is no digest at
    all, [verify_password] does not answer [False]: it raises. *)
Lemma malformed_digest_raises :
  verify_password (env := Ideal.env) (py "correct horse") (py "correct horse")
    ≠ Ok false
  ∧ verify_password (env := Ideal.env) (py "correct horse") (py "correct horse")
    = Raise UnknownHashError.
Proof. split; [vm_compute; discriminate|vm_compute; reflexivity]. Qed.

(** * More runs *)

Example utf8_e_acute : utf8_encode [233%Z] = Ok [195; 169]%Z.
Proof. reflexivity. Qed.

Example utf8_euro_cut : utf8_decode_ignore [97; 226; 130]%Z = [97]%Z.
Proof. reflexivity. Qed.

Example utf8_snowman : utf8_decode_ignore [226; 152; 131; 33]%Z = [9731; 33]%Z.
Proof. reflexivity. Qed.

(** Alice logs in with her password and the token resolves to her record. *)
Example alice_logs_in :
  (login_for_access_token (env := Ideal.env)
     (mkForm (py "alice") (py "correct horse")) sample_now db_alice).1
  = Ok {[ "access_token" := fresh_token; "token_type" := py "bearer" ]}
  ∧ (get_current_user (env := Ideal.env) fresh_token sample_now db_alice).1
    = Ok alice_record.
Proof. split; [vm_compute; reflexivity|vm_compute; reflexivity]. Qed.

(** * Runs for the further properties *)

Lemma signup_alice_stored :
  signup (env := Ideal.env) alice [1; 2; 3]%Z ∅
  = (Ok (mkUser (py "alice") (py "a@x.com")), db_alice).
Proof. vm_compute. reflexivity. Qed.

Lemma db_alice_holds_alice : db_alice !! py "alice" = Some alice_record.
Proof. vm_compute. reflexivity. Qed.


Lemma get_password_hash_whole_characters_run :
  utf8_encode straddling_password = Ok (replicate 71 97%Z ++ [195%Z; 169%Z])
  ∧ ∃ n b',
      get_password_hash (env := Ideal.env) [7]%Z straddling_password
      = Ideal.hash [7]%Z (take n straddling_password)
      ∧ utf8_encode (take n straddling_password) = Ok b'
      ∧ length b' ≤ 72
      ∧ (n = length straddling_password
         ∨ ∃ b'', utf8_encode (take (S n) straddling_password) = Ok b''
                  ∧ 72 < length b'').
Proof.
  assert (utf8_encode straddling_password = Ok (replicate 71 97%Z ++ [195%Z; 169%Z]))
    as Hb by (vm_compute; reflexivity).
  split; [exact Hb|].
  exact (get_password_hash_whole_characters (env := Ideal.env) [7]%Z
           straddling_password _ Hb).
Defined.

Lemma get_password_hash_tail_ignored_run :
  utf8_encode long_password_x = Ok long_password_x
  ∧ utf8_encode long_password_yz = Ok long_password_yz
  ∧ take 72 long_password_x = take 72 long_password_yz
  ∧ get_password_hash (env := Ideal.env) [7]%Z long_password_x
    = get_password_hash (env := Ideal.env) [7]%Z long_password_yz.
Proof.
  assert (utf8_encode long_password_x = Ok long_password_x) as H1
    by (vm_compute; reflexivity).
  assert (utf8_encode long_password_yz = Ok long_password_yz) as H2
    by (vm_compute; reflexivity).
  assert (take 72 long_password_x = take 72 long_password_yz) as H3
    by (vm_compute; reflexivity).
  split; [exact H1|]. split; [exact H2|]. split; [exact H3|].
  exact (get_password_hash_tail_ignored (env := Ideal.env) [7]%Z _ _ _ _ H1 H2 H3).
Defined.

Lemma surrogate_password_not_hashed_run :
  55296%Z ∈ surrogate_password
  ∧ db_alice !! signup_username carol = None
  ∧ ¬ email_taken (signup_email carol) db_alice
  ∧ get_password_hash (env := Ideal.env) [7]%Z surrogate_password
    = Raise UnicodeEncodeError
  ∧ signup (env := Ideal.env) carol [7]%Z db_alice = (Raise UnicodeEncodeError, db_alice).
Proof.
  assert (55296%Z ∈ surrogate_password) as Hin by (unfold surrogate_password; set_solver).
  assert (db_alice !! signup_username carol = None) as Hu by (vm_compute; reflexivity).
  assert (¬ email_taken (signup_email carol) db_alice) as He.
  { intros Ht. apply existsb_email in Ht. vm_compute in Ht. discriminate. }
  destruct (surrogate_password_not_hashed (env := Ideal.env) [7]%Z surrogate_password
              55296%Z Hin ltac:(lia)) as [Hh Hs].
  split; [exact Hin|]. split; [exact Hu|]. split; [exact He|]. split; [exact Hh|].
  exact (Hs carol db_alice eq_refl Hu He).
Defined.

Lemma hash_then_verify_short_run :
  utf8_encode (py "correct horse") = Ok (py "correct horse")
  ∧ utf8_encode (py "wrong horse") = Ok (py "wrong horse")
  ∧ get_password_hash (env := Ideal.env) [1; 2; 3]%Z (py "correct horse")
    = Ok alice_digest
  ∧ verify_password (env := Ideal.env) (py "correct horse") alice_digest = Ok true
  ∧ verify_password (env := Ideal.env) (py "wrong horse") alice_digest ≠ Ok true.
Proof.
  assert (utf8_encode (py "correct horse") = Ok (py "correct horse")) as Hb
    by (vm_compute; reflexivity).
  assert (utf8_encode (py "wrong horse") = Ok (py "wrong horse")) as Hb'
    by (vm_compute; reflexivity).
  assert (get_password_hash (env := Ideal.env) [1; 2; 3]%Z (py "correct horse")
          = Ok alice_digest) as Hd by (vm_compute; reflexivity).
  assert (length (py "correct horse") ≤ 72) as Hlen by (vm_compute; lia).
  assert (length (py "wrong horse") ≤ 72) as Hlen' by (vm_compute; lia).
  destruct (hash_then_verify_short (env := Ideal.env)
              ideal_verify_sound ideal_verify_complete
              [1; 2; 3]%Z (py "correct horse") alice_digest _ Hb Hlen Hd)
    as [Hyes Hno].
  split; [exact Hb|]. split; [exact Hb'|]. split; [exact Hd|]. split; [exact Hyes|].
  apply (Hno (py "wrong horse") _ Hb' Hlen'). vm_compute. discriminate.
Defined.

Lemma cut_character_never_verifies_run :
  utf8_encode straddling_password = Ok (replicate 71 97%Z ++ [195%Z; 169%Z])
  ∧ utf8_encode (utf8_decode_ignore (take 72 (replicate 71 97%Z ++ [195%Z; 169%Z])))
    = Ok (replicate 71 97%Z)
  ∧ get_password_hash (env := Ideal.env) [7]%Z straddling_password = Ok straddling_digest
  ∧ verify_password (env := Ideal.env) straddling_password straddling_digest ≠ Ok true.
Proof.
  assert (utf8_encode straddling_password = Ok (replicate 71 97%Z ++ [195%Z; 169%Z]))
    as Hb by (vm_compute; reflexivity).
  assert (utf8_encode (utf8_decode_ignore (take 72 (replicate 71 97%Z ++ [195%Z; 169%Z])))
          = Ok (replicate 71 97%Z)) as Hb' by (vm_compute; reflexivity).
  assert (get_password_hash (env := Ideal.env) [7]%Z straddling_password
          = Ok straddling_digest) as Hd by (vm_compute; reflexivity).
  assert (length (replicate 71 97%Z) < 72
          < length (replicate 71 97%Z ++ [195%Z; 169%Z])) as Hlen
    by (rewrite length_app, !length_replicate; simpl; lia).
  split; [exact Hb|]. split; [exact Hb'|]. split; [exact Hd|].
  exact (proj1 (cut_character_never_verifies (env := Ideal.env) ideal_verify_sound
                  [7]%Z straddling_password straddling_digest _ _ Hb Hb' Hlen Hd)).
Defined.

Lemma signup_success_effect_run :
  signup (env := Ideal.env) alice [1; 2; 3]%Z ∅
    = (Ok (mkUser (py "alice") (py "a@x.com")), db_alice)
  ∧ (∅ : store) !! signup_username alice = None
  ∧ ¬ email_taken (signup_email alice) ∅
  ∧ (∃ h, get_password_hash (env := Ideal.env) [1; 2; 3]%Z (signup_password alice) = Ok h
          ∧ db_alice !! signup_username alice
            = Some {[ "username" := signup_username alice;
                      "email" := signup_email alice;
                      "hashed_password" := h ]})
  ∧ (∀ k, k ≠ signup_username alice → db_alice !! k = (∅ : store) !! k)
  ∧ size db_alice = S (size (∅ : store)).
Proof.
  pose proof signup_alice_stored as Hs.
  split; [exact Hs|].
  exact (signup_success_effect (env := Ideal.env) alice [1; 2; 3]%Z ∅ db_alice _ Hs).
Defined.

Lemma signup_then_conflict_run :
  signup (env := Ideal.env) alice [1; 2; 3]%Z ∅
    = (Ok (mkUser (py "alice") (py "a@x.com")), db_alice)
  ∧ signup (env := Ideal.env) alice_again [9]%Z db_alice
    = (Raise (EHTTP username_registered), db_alice)
  ∧ signup (env := Ideal.env) bob_same_email [9]%Z db_alice
    = (Raise (EHTTP email_registered), db_alice).
Proof.
  pose proof signup_alice_stored as Hs.
  assert (db_alice !! signup_username bob_same_email = None) as Hfree
    by (vm_compute; reflexivity).
  split; [exact Hs|]. split.
  - exact (proj1 (signup_then_conflict (env := Ideal.env) alice alice_again
                    [1; 2; 3]%Z [9]%Z ∅ db_alice _ Hs) eq_refl).
  - exact (proj2 (signup_then_conflict (env := Ideal.env) alice bob_same_email
                    [1; 2; 3]%Z [9]%Z ∅ db_alice _ Hs) Hfree eq_refl).
Defined.



Lemma get_current_user_live_record_run :
  get_current_user (env := Ideal.env) fresh_token sample_now db_alice
    = (Ok alice_record, db_alice)
  ∧ ∃ payload u,
      jwt_decode (env := Ideal.env) fresh_token (@SECRET_KEY Ideal.env) sample_now
      = Ok payload
      ∧ payload !! "sub" = Some (JStr u)
      ∧ db_alice !! u = Some alice_record.
Proof.
  assert (get_current_user (env := Ideal.env) fresh_token sample_now db_alice
          = (Ok alice_record, db_alice)) as Hg by (vm_compute; reflexivity).
  split; [exact Hg|].
  exact (proj2 (get_current_user_live_record (env := Ideal.env) fresh_token sample_now
                  db_alice db_alice alice_record Hg)).
Defined.

Lemma get_current_user_single_http_error_run :
  (get_current_user (env := Ideal.env) (py "garbage") sample_now db_alice).1
    = Raise (EHTTP credentials_exception)
  ∧ status_code credentials_exception = 401%Z
  ∧ headers credentials_exception = Some [("WWW-Authenticate", "Bearer")].
Proof.
  assert ((get_current_user (env := Ideal.env) (py "garbage") sample_now db_alice).1
          = Raise (EHTTP credentials_exception)) as Hg by (vm_compute; reflexivity).
  split; [exact Hg|].
  exact (proj2 (get_current_user_single_http_error (env := Ideal.env)
                  ideal_to_int_raises (py "garbage") sample_now db_alice _ Hg)).
Defined.

Lemma reachable_records_hashed_run :
  reachable (env := Ideal.env) db_history
  ∧ db_history !! py "alice" = Some alice_record
  ∧ ∃ e h salt password,
      alice_record = {[ "username" := py "alice"; "email" := e; "hashed_password" := h ]}
      ∧ get_password_hash (env := Ideal.env) salt password = Ok h.
Proof.
  assert (reachable (env := Ideal.env) db_history) as Hr.
  { unfold db_history. do 4 apply reachable_step. apply reachable_empty. }
  assert (db_history !! py "alice" = Some alice_record) as Hu
    by (vm_compute; reflexivity).
  split; [exact Hr|]. split; [exact Hu|].
  exact (reachable_records_hashed (env := Ideal.env) db_history Hr _ _ Hu).
Defined.


Lemma token_without_expiry_never_expires_run :
  Ideal.unsign eternal_token (py "placeholder_secret_key")
    = Some {[ "sub" := JStr (py "alice") ]}
  ∧ db_alice !! py "alice" = Some alice_record
  ∧ get_current_user (env := Ideal.env) eternal_token (sample_now + 1000000000000000)
      db_alice
    = (Ok alice_record, db_alice).
Proof.
  assert (Ideal.unsign eternal_token (py "placeholder_secret_key")
          = Some {[ "sub" := JStr (py "alice") ]}) as Hv by (vm_compute; reflexivity).
  pose proof db_alice_holds_alice as Hu.
  split; [exact Hv|]. split; [exact Hu|].
  exact (token_without_expiry_never_expires (env := Ideal.env) eternal_token
           (py "alice") db_alice alice_record _ Hv Hu).
Defined.

